(** * gen1-test-script: credential generators and the test-user provisioner

    A shallow embedding of [generateUsername], [generatePassword],
    [generateEmail] and [createTestUser] of gen1-test-script.ts, together
    with the regular expression the property tests match e-mail addresses
    against, and the properties of the specification stated over them.

    JavaScript strings are sequences of UTF-16 code units; they are modelled
    as lists of code units so that [length], concatenation, [replace] and the
    regular expression atom [.] mean what they mean in the script. *)

From Stdlib Require Import Strings.Ascii Strings.String Strings.Byte.
From Stdlib Require Import Numbers.DecimalString Numbers.HexadecimalString.
From Stdlib Require Import Numbers.DecimalZ.
From Stdlib Require Import NArith ZArith Lia Bool Arith List.
Import ListNotations.

Set Implicit Arguments.

(* ================================================================= *)
(** ** JavaScript strings *)

Module JS.

(** A UTF-16 code unit. *)
Definition code_unit := N.

Definition jsstring := list code_unit.

(** An ASCII literal of the script, as a sequence of code units. *)
Definition lit (s : string) : jsstring :=
  map N_of_ascii (list_ascii_of_string s).

(** [xs.join('')]: an [undefined] element contributes the empty string. *)
Definition join (xs : list (option jsstring)) : jsstring :=
  concat (map (fun x => match x with Some s => s | None => [] end) xs).

(** [s[i]]: indexing past the end yields [undefined]. *)
Definition index (s : jsstring) (i : nat) : option jsstring :=
  match nth_error s i with
  | Some c => Some [c]
  | None => None
  end.

(** [String(z)] for an integral number below 1e21 in magnitude, which is
    what [Date.now()] returns: the decimal digits, with a leading [-] for
    a negative number. *)
Definition numberToString (z : Z) : jsstring :=
  lit (DecimalString.NilEmpty.string_of_int (Z.to_int z)).

(** [n.toString(16)] for a non-negative integer. *)
Definition toString16 (n : N) : jsstring :=
  lit (HexadecimalString.NilZero.string_of_uint (N.to_hex_uint n)).

(** [s.padStart(targetLength, padString)]: the pad string is repeated
    and truncated to fill the missing length. *)
Definition padStart (targetLength : nat) (padString s : jsstring)
  : jsstring :=
  let missing := targetLength - length s in
  match padString with
  | [] => s
  | _ => firstn missing (concat (repeat padString missing)) ++ s
  end.

Fixpoint startsWith (searchString s : jsstring) : bool :=
  match searchString, s with
  | [], _ => true
  | _ :: _, [] => false
  | p :: ps, c :: cs => (N.eqb p c && startsWith ps cs)%bool
  end.

(** [s.indexOf(searchString)], with [None] for [-1]. *)
Fixpoint indexOf (searchString s : jsstring) : option nat :=
  if startsWith searchString s then Some 0
  else match s with
       | [] => None
       | _ :: cs => option_map S (indexOf searchString cs)
       end.

(** [s.replace(searchValue, replaceValue)] with a string [searchValue]
    and a [replaceValue] without [$]: only the first occurrence is
    replaced. *)
Fixpoint replace (searchValue replaceValue s : jsstring) : jsstring :=
  if startsWith searchValue s
  then replaceValue ++ skipn (length searchValue) s
  else match s with
       | [] => []
       | c :: cs => c :: replace searchValue replaceValue cs
       end.

(** Character classes used by the tests. *)
Definition isUpper (c : code_unit) : bool := (65 <=? c)%N && (c <=? 90)%N.
Definition isLower (c : code_unit) : bool := (97 <=? c)%N && (c <=? 122)%N.
Definition isDigit (c : code_unit) : bool := (48 <=? c)%N && (c <=? 57)%N.
Definition isHyphen (c : code_unit) : bool := (c =? 45)%N.
Definition isAlnum (c : code_unit) : bool :=
  isUpper c || isLower c || isDigit c.

(** LF, CR, U+2028 and U+2029: the code units [.] does not match. *)
Definition isLineTerminator (c : code_unit) : bool :=
  (c =? 10)%N || (c =? 13)%N || (c =? 0x2028)%N || (c =? 0x2029)%N.

(** [/[class]/.test(s)] for a one-character class: some code unit of [s]
    is in the class. *)
Definition test (class : code_unit -> bool) (s : jsstring) : bool :=
  existsb class s.

End JS.

Import JS.

(* ================================================================= *)
(** ** The regular expression of the e-mail property test *)

Module Regex.

(** The patterns of the tests are anchored sequences of literal
    characters and the capturing group [(.+)]. *)
Inductive atom :=
| Chr (c : code_unit)
| DotPlusGroup.

Definition pattern := list atom.

Definition chars (s : string) : pattern := map Chr (lit s).

(** Backtracking match of [^p$] against the whole of [s]; the result is
    the list of captures.  [(.+)] is greedy: it first tries to take one
    more code unit and gives it back only when the rest fails. *)
Fixpoint exec (p : pattern) (s : jsstring) : option (list jsstring) :=
  match p with
  | [] => match s with [] => Some [] | _ :: _ => None end
  | Chr c :: p' =>
      match s with
      | x :: s' => if N.eqb x c then exec p' s' else None
      | [] => None
      end
  | DotPlusGroup :: p' =>
      (fix plus (s : jsstring) : option (list jsstring) :=
         match s with
         | [] => None
         | x :: s' =>
             if isLineTerminator x then None
             else match plus s' with
                  | Some (cap :: caps) => Some ((x :: cap) :: caps)
                  | Some [] => None
                  | None =>
                      match exec p' s' with
                      | Some caps => Some ([x] :: caps)
                      | None => None
                      end
                  end
         end) s
  end.

(** [/^ci-test-(.+)@test\.example\.com$/] *)
Definition emailPattern : pattern :=
  chars "ci-test-" ++ [DotPlusGroup] ++ chars "@test.example.com".

End Regex.

(* ================================================================= *)
(** ** Effects: clock, random bytes, console, process and provider *)

(** What a [catch] clause can receive: an [Error] instance with its
    [message], or some other thrown value. *)
Inductive thrown :=
| ErrorInstance (message : jsstring)
| OtherValue (v : jsstring).

(** An argument of [console.log] or [console.error]. *)
Inductive logarg :=
| LogString (s : jsstring)
| LogThrown (e : thrown).

(** The inputs of the two commands the script sends.  The configuration
    values are only cast to [string | undefined], so a field holds what the
    configuration holds. *)
Record SignUpInput := {
  ClientId : option jsstring;
  su_Username : jsstring;
  Password : jsstring;
  UserAttributes : list (jsstring * jsstring)   (* Name, Value *)
}.

Record AdminConfirmSignUpInput := {
  UserPoolId : option jsstring;
  ac_Username : jsstring
}.

Inductive Command :=
| SignUpCommand (input : SignUpInput)
| AdminConfirmSignUpCommand (input : AdminConfirmSignUpInput).

(** What a run does to the outside, in order. *)
Inductive Event :=
| ConsoleLog (args : list logarg)
| ConsoleError (args : list logarg)
| NewCognitoClient (region : option jsstring)
| ClientSend (cmd : Command).

(** The outside of a run: the readings of the clock, the bytes
    [webcrypto.getRandomValues] delivers, and how the identity provider
    answers the n-th [send] ([None]: the promise resolves). *)
Record Env := {
  Date_now : nat -> Z;
  randomByte : nat -> byte;
  cognitoSend : nat -> Command -> option thrown
}.

Record State := {
  clockReads : nat;
  bytesDrawn : nat;
  sends : nat;
  events : list Event
}.

Definition initial : State :=
  {| clockReads := 0; bytesDrawn := 0; sends := 0; events := [] |}.

(** How a computation ends: with a value, with a thrown value, or with the
    process terminated by [process.exit]. *)
Inductive Result (A : Type) :=
| Returned (a : A)
| Threw (e : thrown)
| Exited (code : Z).

Arguments Returned {A} a.
Arguments Threw {A} e.
Arguments Exited {A} code.

Definition M (A : Type) : Type := Env -> State -> Result A * State.

Definition ret {A} (a : A) : M A := fun _ st => (Returned a, st).

Definition bind {A B} (m : M A) (k : A -> M B) : M B :=
  fun env st =>
    match m env st with
    | (Returned a, st') => k a env st'
    | (Threw e, st') => (Threw e, st')
    | (Exited c, st') => (Exited c, st')
    end.

Notation "x <- m ;; k" := (bind m (fun x => k))
  (at level 61, m at next level, right associativity).
Notation "m ;; k" := (bind m (fun _ => k))
  (at level 61, right associativity).

(** [try { body } catch (error) { handler }]: a terminated process is not
    caught. *)
Definition try_catch {A} (body : M A) (handler : thrown -> M A) : M A :=
  fun env st =>
    match body env st with
    | (Threw e, st') => handler e env st'
    | r => r
    end.

Definition when (b : bool) (m : M unit) : M unit :=
  if b then m else ret tt.

Definition emit (ev : Event) : M unit :=
  fun _ st =>
    (Returned tt,
     {| clockReads := clockReads st; bytesDrawn := bytesDrawn st;
        sends := sends st; events := events st ++ [ev] |}).

Definition console_log (args : list logarg) : M unit :=
  emit (ConsoleLog args).

Definition console_error (args : list logarg) : M unit :=
  emit (ConsoleError args).

Definition process_exit {A} (code : Z) : M A :=
  fun _ st => (Exited code, st).

Definition DateNow : M Z :=
  fun env st =>
    (Returned (Date_now env (clockReads st)),
     {| clockReads := S (clockReads st); bytesDrawn := bytesDrawn st;
        sends := sends st; events := events st |}).

(** [webcrypto.getRandomValues(new Uint8Array(n))] *)
Definition getRandomValues (n : nat) : M (list byte) :=
  fun env st =>
    (Returned (map (randomByte env) (seq (bytesDrawn st) n)),
     {| clockReads := clockReads st; bytesDrawn := bytesDrawn st + n;
        sends := sends st; events := events st |}).

Definition newCognitoIdentityProviderClient (region : option jsstring)
  : M unit :=
  emit (NewCognitoClient region).

(** [await cognitoClient.send(cmd)] *)
Definition send (cmd : Command) : M unit :=
  fun env st =>
    let st' :=
      {| clockReads := clockReads st; bytesDrawn := bytesDrawn st;
         sends := S (sends st); events := events st ++ [ClientSend cmd] |} in
    match cognitoSend env (sends st) cmd with
    | None => (Returned tt, st')
    | Some e => (Threw e, st')
    end.

(* ================================================================= *)
(** ** Credential generation helpers *)

(** [b.toString(16).padStart(2, '0')] *)
Definition hexByte (b : byte) : jsstring :=
  padStart 2 (lit "0") (toString16 (Byte.to_N b)).

(** The string [generateUsername] builds from the clock reading and the
    random bytes. *)
Definition usernameOf (timestamp : Z) (randomHex : list byte) : jsstring :=
  let hex := join (map (fun b => Some (hexByte b)) randomHex) in
  lit "ci-test-" ++ numberToString timestamp ++ lit "-" ++ hex.

Definition generateUsername : M jsstring :=
  timestamp <- DateNow ;;
  randomHex <- getRandomValues 2 ;;
  ret (usernameOf timestamp randomHex).

Definition alphanumeric : jsstring :=
  lit "ABCDEFGHIJKLMNOPQRSTUVWXYZabcdefghijklmnopqrstuvwxyz0123456789".

(** The string [generatePassword] builds from the random bytes. *)
Definition passwordOf (randomBytes : list byte) : jsstring :=
  let prefix := lit "CiTest1!" in
  let suffix :=
    join (map (fun b =>
                 index alphanumeric
                       (Byte.to_nat b mod length alphanumeric))
              randomBytes) in
  prefix ++ suffix.

Definition generatePassword : M jsstring :=
  randomBytes <- getRandomValues 8 ;;
  ret (passwordOf randomBytes).

Definition generateEmail (uniqueId : jsstring) : jsstring :=
  lit "ci-test-" ++ uniqueId ++ lit "@test.example.com".

(** [Array.from({ length: count }, () => generateUsername())], as the
    uniqueness test calls the generator. *)
Fixpoint generateUsernames (count : nat) : M (list jsstring) :=
  match count with
  | O => ret []
  | S n =>
      u <- generateUsername ;;
      us <- generateUsernames n ;;
      ret (u :: us)
  end.

(* ================================================================= *)
(** ** Test user provisioning *)

Record Config := {
  aws_user_pools_id : option jsstring;
  aws_user_pools_web_client_id : option jsstring;
  aws_cognito_region : option jsstring
}.

Record TestUser := {
  username : jsstring;
  password : jsstring
}.

(** [!x] is false exactly for a non-empty string. *)
Definition truthy (x : option jsstring) : bool :=
  match x with
  | Some (_ :: _) => true
  | Some [] | None => false
  end.

(** U+274C, U+2705 and U+1F511 (a surrogate pair). *)
Definition crossMark : jsstring := [0x274c%N].
Definition checkMark : jsstring := [0x2705%N].
Definition keyEmoji : jsstring := [0xd83d%N; 0xdd11%N].

Definition missingMessage (field : string) : jsstring :=
  crossMark ++ lit " Missing " ++ lit field ++ lit " in Amplify configuration".

Definition failureMarker : jsstring :=
  crossMark ++ lit " Failed to create test user:".

(** [error instanceof Error ? error.message : error] *)
Definition errorPayload (error : thrown) : logarg :=
  match error with
  | ErrorInstance message => LogString message
  | OtherValue _ => LogThrown error
  end.

Definition createTestUser (amplifyconfig : Config) : M TestUser :=
  let userPoolId := aws_user_pools_id amplifyconfig in
  let clientId := aws_user_pools_web_client_id amplifyconfig in
  let region := aws_cognito_region amplifyconfig in
  when (negb (truthy userPoolId))
    (console_error [LogString (missingMessage "aws_user_pools_id")] ;;
     process_exit 1) ;;
  when (negb (truthy clientId))
    (console_error [LogString (missingMessage "aws_user_pools_web_client_id")] ;;
     process_exit 1) ;;
  when (negb (truthy region))
    (console_error [LogString (missingMessage "aws_cognito_region")] ;;
     process_exit 1) ;;
  try_catch
    (generated <- generateUsername ;;
     let uniqueId := replace (lit "ci-test-") [] generated in
     password <- generatePassword ;;
     let email := generateEmail uniqueId in
     console_log
       [LogString ([10%N] ++ keyEmoji ++ lit " Creating test user: " ++ email)] ;;
     newCognitoIdentityProviderClient region ;;
     send (SignUpCommand
             {| ClientId := clientId;
                su_Username := email;
                Password := password;
                UserAttributes := [(lit "email", email)] |}) ;;
     console_log [LogString (checkMark ++ lit " SignUp succeeded")] ;;
     send (AdminConfirmSignUpCommand
             {| UserPoolId := userPoolId; ac_Username := email |}) ;;
     console_log [LogString (checkMark ++ lit " AdminConfirmSignUp succeeded")] ;;
     ret {| username := email; password := password |})
    (fun error =>
       console_error [LogString failureMarker; errorPayload error] ;;
       process_exit 1).

(* ================================================================= *)
(** ** The test run *)

(** [a === b] on strings. *)
Fixpoint strictEquals (a b : jsstring) : bool :=
  match a, b with
  | [], [] => true
  | x :: a', y :: b' => N.eqb x y && strictEquals a' b'
  | _, _ => false
  end.

Unset Implicit Arguments.

(** The exports of test-utils.ts the scripts use.  That file is not among
    the sources, so its functions are parameters of a run: each may log,
    throw or end the process as it likes.  [createTestRunner] yields
    [{ runTest, printSummary }]; [createTestOrchestrator] yields
    [{ runPublicQueryTests, runMutationTests, runStorageTests }]. *)
Record TestUtils := {
  RunTest : Type;
  TestFunctions : Type;
  createTestRunner : M (RunTest * M unit);
  createTestFunctions : TestUser -> M TestFunctions;
  authenticateUser : TestFunctions -> M bool;
  signOutUser : TestFunctions -> M unit;
  createTestOrchestrator :
    TestFunctions -> RunTest -> M (M unit * M unit * M unit)
}.

Set Implicit Arguments.

(** U+1F680 (a surrogate pair) and U+26A0 U+FE0F. *)
Definition rocket : jsstring := [0xd83d%N; 0xde80%N].
Definition warningSign : jsstring := [0x26a0%N; 0xfe0f%N].

Definition cannotAuthenticate : jsstring :=
  [10%N] ++ crossMark
    ++ lit " Cannot run authenticated tests without authentication".

(** [runAllTests] of gen1-test-script.ts. *)
Definition runAllTests (utils : TestUtils) (amplifyconfig : Config) : M unit :=
  console_log
    [LogString (rocket ++ lit " Starting Gen1 Test Script" ++ [10%N])] ;;
  console_log [LogString (lit "This script tests:")] ;;
  console_log [LogString (lit "  1. Public GraphQL Queries")] ;;
  console_log [LogString (lit "  2. Authenticated GraphQL Mutations")] ;;
  console_log [LogString (lit "  3. S3 Storage Operations")] ;;
  testUser <- createTestUser amplifyconfig ;;
  runner <- createTestRunner utils ;;
  let '(runTest, printSummary) := runner in
  testFunctions <- createTestFunctions utils testUser ;;
  orchestrator <- createTestOrchestrator utils testFunctions runTest ;;
  let '(runPublicQueryTests, runMutationTests, runStorageTests) :=
    orchestrator in
  runPublicQueryTests ;;
  isAuthenticated <- authenticateUser utils testFunctions ;;
  if negb isAuthenticated
  then console_log [LogString cannotAuthenticate] ;; ret tt
  else
    runMutationTests ;;
    runStorageTests ;;
    signOutUser utils testFunctions ;;
    printSummary.

(** gen2-test-script.ts: the credentials are a constant of the script. *)
Module Gen2.

Definition TEST_USER : TestUser :=
  {| username := lit "YOUR_USERNAME_HERE";
     password := lit "YOUR_PASSWORD_HERE" |}.

Definition runAllTests (utils : TestUtils) : M unit :=
  console_log
    [LogString (rocket ++ lit " Starting Gen2 Test Script" ++ [10%N])] ;;
  console_log [LogString (lit "This script tests:")] ;;
  console_log [LogString (lit "  1. Public GraphQL Queries")] ;;
  console_log [LogString (lit "  2. Authenticated GraphQL Mutations")] ;;
  console_log [LogString (lit "  3. S3 Storage Operations")] ;;
  if strictEquals (username TEST_USER) (lit "YOUR_USERNAME_HERE")
  then
    console_log
      [LogString ([10%N] ++ warningSign
                    ++ lit "  Please update TEST_USER credentials before running!")] ;;
    ret tt
  else
    runner <- createTestRunner utils ;;
    let '(runTest, printSummary) := runner in
    testFunctions <- createTestFunctions utils TEST_USER ;;
    orchestrator <- createTestOrchestrator utils testFunctions runTest ;;
    let '(runPublicQueryTests, runMutationTests, runStorageTests) :=
      orchestrator in
    runPublicQueryTests ;;
    isAuthenticated <- authenticateUser utils testFunctions ;;
    if negb isAuthenticated
    then console_log [LogString cannotAuthenticate] ;; ret tt
    else
      runMutationTests ;;
      runStorageTests ;;
      signOutUser utils testFunctions ;;
      printSummary.

End Gen2.

(* ================================================================= *)
(** ** Vocabulary of the properties *)

(** The code units [generateUsername] can produce after its prefix:
    decimal digits, lowercase letters and the hyphen. *)
Definition usernameChar (c : code_unit) : bool :=
  isLower c || isDigit c || isHyphen c.

(** Reading two hexadecimal digits back as a byte. *)
Definition hexDigitValue (c : code_unit) : option N :=
  if isDigit c then Some (c - 48)%N
  else if (97 <=? c)%N && (c <=? 102)%N then Some (c - 87)%N
  else None.

Definition parseHexByte (s : jsstring) : option byte :=
  match s with
  | [h; l] =>
      match hexDigitValue h, hexDigitValue l with
      | Some x, Some y => Byte.of_N (16 * x + y)
      | _, _ => None
      end
  | _ => None
  end.

Definition isHexDigit (c : code_unit) : bool :=
  isDigit c || ((97 <=? c)%N && (c <=? 102)%N).

(** The clock reading and the two random bytes a call of
    [generateUsername] consumes when it starts in [st]. *)
Definition usernameInputs (env : Env) (st : State) : Z * byte * byte :=
  (Date_now env (clockReads st),
   randomByte env (bytesDrawn st),
   randomByte env (S (bytesDrawn st))).

(** The inputs of the [i]-th of several consecutive calls. *)
Definition nthUsernameInputs (env : Env) (st : State) (i : nat)
  : Z * byte * byte :=
  (Date_now env (clockReads st + i),
   randomByte env (bytesDrawn st + 2 * i),
   randomByte env (S (bytesDrawn st + 2 * i))).

Definition formatInputs (x : Z * byte * byte) : jsstring :=
  let '(timestamp, b0, b1) := x in usernameOf timestamp [b0; b1].

(** A sample outside: the clock stands still at one millisecond, the
    random source counts up, and the provider accepts every command. *)
Definition sampleEnv : Env :=
  {| Date_now := fun _ => 1719432000000%Z;
     randomByte := fun n => match Byte.of_nat n with Some b => b | None => x00 end;
     cognitoSend := fun _ _ => None |}.

(** The same outside with the random source shifted by one byte. *)
Definition shiftedEnv : Env :=
  {| Date_now := Date_now sampleEnv;
     randomByte := fun n => randomByte sampleEnv (S n);
     cognitoSend := cognitoSend sampleEnv |}.

(** No code unit of the string is a line terminator. *)
Definition noLineTerminator (s : jsstring) : bool :=
  forallb (fun c => negb (isLineTerminator c)) s.

(** All three configuration values pass the checks of [createTestUser]. *)
Definition configured (cfg : Config) : Prop :=
  truthy (aws_user_pools_id cfg) = true /\
  truthy (aws_user_pools_web_client_id cfg) = true /\
  truthy (aws_cognito_region cfg) = true.

(** The username, password and address a run starting in [st] generates. *)
Definition generatedUsername (env : Env) (st : State) : jsstring :=
  usernameOf (Date_now env (clockReads st))
             [randomByte env (bytesDrawn st);
              randomByte env (S (bytesDrawn st))].

Definition generatedPassword (env : Env) (st : State) : jsstring :=
  passwordOf (map (randomByte env) (seq (bytesDrawn st + 2) 8)).

Definition generatedEmail (env : Env) (st : State) : jsstring :=
  generatedUsername env st ++ lit "@test.example.com".

(** The two commands of such a run. *)
Definition signUpOf (cfg : Config) (env : Env) (st : State) : Command :=
  SignUpCommand
    {| ClientId := aws_user_pools_web_client_id cfg;
       su_Username := generatedEmail env st;
       Password := generatedPassword env st;
       UserAttributes := [(lit "email", generatedEmail env st)] |}.

Definition adminConfirmOf (cfg : Config) (env : Env) (st : State) : Command :=
  AdminConfirmSignUpCommand
    {| UserPoolId := aws_user_pools_id cfg;
       ac_Username := generatedEmail env st |}.

(** The events of a run up to and including the first [send]. *)
Definition signUpEvents (cfg : Config) (env : Env) (st : State) : list Event :=
  [ConsoleLog [LogString ([10%N] ++ keyEmoji ++ lit " Creating test user: "
                            ++ generatedEmail env st)];
   NewCognitoClient (aws_cognito_region cfg);
   ClientSend (signUpOf cfg env st)].

(** The events from the success of [SignUp] up to and including the
    second [send]. *)
Definition confirmEvents (cfg : Config) (env : Env) (st : State) : list Event :=
  [ConsoleLog [LogString (checkMark ++ lit " SignUp succeeded")];
   ClientSend (adminConfirmOf cfg env st)].

Definition failureEvent (e : thrown) : Event :=
  ConsoleError [LogString failureMarker; errorPayload e].

(** The commands sent to the provider, in order. *)
Definition sentCommands (evs : list Event) : list Command :=
  flat_map (fun ev => match ev with ClientSend c => [c] | _ => [] end) evs.

Definition withEvents (st : State) (evs : list Event) : State :=
  {| clockReads := clockReads st; bytesDrawn := bytesDrawn st;
     sends := sends st; events := events st ++ evs |}.

(** The state after the credentials were generated, [n] commands were sent
    and [evs] happened. *)
Definition provisioned (st : State) (n : nat) (evs : list Event) : State :=
  {| clockReads := S (clockReads st); bytesDrawn := bytesDrawn st + 10;
     sends := sends st + n; events := events st ++ evs |}.

(** The code units of what follows the prefix of a username: decimal
    digits, the hyphen and the hexadecimal digits a to f. *)
Definition tokenChar (c : code_unit) : bool :=
  isDigit c || isHyphen c || isHexDigit c.

(** A configuration as the unit tests set it up. *)
Definition sampleConfig : Config :=
  {| aws_user_pools_id := Some (lit "us-east-1_TestPool");
     aws_user_pools_web_client_id := Some (lit "test-client-id-123");
     aws_cognito_region := Some (lit "us-east-1") |}.

(** The same configuration without a region. *)
Definition noRegionConfig : Config :=
  {| aws_user_pools_id := aws_user_pools_id sampleConfig;
     aws_user_pools_web_client_id := aws_user_pools_web_client_id sampleConfig;
     aws_cognito_region := None |}.

(** The same configuration with an empty client identifier. *)
Definition emptyClientConfig : Config :=
  {| aws_user_pools_id := aws_user_pools_id sampleConfig;
     aws_user_pools_web_client_id := Some [];
     aws_cognito_region := aws_cognito_region sampleConfig |}.

(** An outside whose provider rejects the [n]-th command with [e], as
    [mockRejectedValueOnce] does. *)
Definition rejectingEnv (n : nat) (e : thrown) : Env :=
  {| Date_now := Date_now sampleEnv;
     randomByte := randomByte sampleEnv;
     cognitoSend := fun i _ => if Nat.eqb i n then Some e else None |}.

(** What a run added to the log. *)
Definition newEvents (st st' : State) : list Event :=
  skipn (length (events st)) (events st').

(** The commands a run of [createTestUser] sends. *)
Definition issued (cfg : Config) (env : Env) (st : State) : list Command :=
  sentCommands (newEvents st (snd (createTestUser cfg env st))).

(** The answers of the provider to the two commands of a run. *)
Definition signUpAnswer (cfg : Config) (env : Env) (st : State)
  : option thrown :=
  cognitoSend env (sends st) (signUpOf cfg env st).

Definition confirmAnswer (cfg : Config) (env : Env) (st : State)
  : option thrown :=
  cognitoSend env (S (sends st)) (adminConfirmOf cfg env st).


(** The character [generatePassword] maps a random byte to. *)
Definition passwordChar (b : byte) : option jsstring :=
  index alphanumeric (Byte.to_nat b mod length alphanumeric).

(** The 256 values of a byte. *)
Definition allBytes : list byte :=
  flat_map (fun n => match Byte.of_nat n with Some b => [b] | None => [] end)
           (seq 0 256).

(** How many byte values [generatePassword] maps to the character [c]. *)
Definition byteCount (c : code_unit) : nat :=
  length (filter (fun b => match passwordChar b with
                           | Some [x] => N.eqb x c
                           | _ => false
                           end) allBytes).

(** The five lines a test script prints first. *)
Definition banner (generation : string) : list Event :=
  [ConsoleLog [LogString (rocket ++ lit " Starting " ++ lit generation
                            ++ lit " Test Script" ++ [10%N])];
   ConsoleLog [LogString (lit "This script tests:")];
   ConsoleLog [LogString (lit "  1. Public GraphQL Queries")];
   ConsoleLog [LogString (lit "  2. Authenticated GraphQL Mutations")];
   ConsoleLog [LogString (lit "  3. S3 Storage Operations")]].

(** A computation that throws. *)
Definition throw {A} (e : thrown) : M A := fun _ st => (Threw e, st).

(** Stand-ins for test-utils.ts: every function logs its name; sign-in
    answers [signedIn] and the mutation tests run [mutations]. *)
Definition say (name : string) : M unit :=
  console_log [LogString (lit name)].

Definition sampleUtils (signedIn : bool) (mutations : M unit) : TestUtils :=
  {| RunTest := unit;
     TestFunctions := TestUser;
     createTestRunner := ret (tt, say "printSummary");
     createTestFunctions := fun user => ret user;
     authenticateUser := fun _ => say "authenticateUser" ;; ret signedIn;
     signOutUser := fun _ => say "signOutUser";
     createTestOrchestrator :=
       fun _ _ => ret (say "runPublicQueryTests",
                       say "runMutationTests" ;; mutations,
                       say "runStorageTests") |}.

(** Two outsides agree on what a run of [createTestUser] starting in [st]
    can observe: one clock reading, ten random bytes and the answers to its
    two commands. *)
Definition sameObservations (cfg : Config) (env env' : Env) (st : State)
  : Prop :=
  Date_now env (clockReads st) = Date_now env' (clockReads st) /\
  (forall i, i < 10 ->
             randomByte env (bytesDrawn st + i)
             = randomByte env' (bytesDrawn st + i)) /\
  cognitoSend env (sends st) (signUpOf cfg env st)
    = cognitoSend env' (sends st) (signUpOf cfg env st) /\
  cognitoSend env (S (sends st)) (adminConfirmOf cfg env st)
    = cognitoSend env' (S (sends st)) (adminConfirmOf cfg env st).

(** The sample outside with a later clock after the first reading and
    other bytes after the tenth. *)
Definition laterEnv : Env :=
  {| Date_now := fun n => match n with
                          | O => Date_now sampleEnv 0
                          | S _ => 1719432000999%Z
                          end;
     randomByte := fun n => if n <? 10 then randomByte sampleEnv n else xff;
     cognitoSend := cognitoSend sampleEnv |}.

(** The sample configuration without a pool identifier. *)
Definition noPoolConfig : Config :=
  {| aws_user_pools_id := None;
     aws_user_pools_web_client_id := aws_user_pools_web_client_id sampleConfig;
     aws_cognito_region := aws_cognito_region sampleConfig |}.

(** The sample outside with a clock that is set back by one millisecond
    after its first reading. *)
Definition steppedBackEnv : Env :=
  {| Date_now := fun n => match n with
                          | O => 1719432000000%Z
                          | S _ => 1719431999999%Z
                          end;
     randomByte := randomByte sampleEnv;
     cognitoSend := cognitoSend sampleEnv |}.

(* ================================================================= *)
(** ** Strings: literals, numbers and hexadecimal bytes *)

Section ListFacts.
Context {A : Type}.

(** Two concatenations with tails of the same length agree part by part. *)
Lemma app_eq_same_tail_length (x1 x2 y1 y2 : list A) :
  length y1 = length y2 -> x1 ++ y1 = x2 ++ y2 -> x1 = x2 /\ y1 = y2.
Proof.
  intros Hlen Heq.
  assert (Hx : length x1 = length x2).
  { apply (f_equal (@length A)) in Heq. rewrite !length_app in Heq. lia. }
  revert x2 Hx Heq.
  induction x1 as [|a x1 IH]; intros [|b x2] Hx Heq; simpl in *;
    try discriminate.
  - auto.
  - injection Heq as -> Heq. injection Hx as Hx.
    destruct (IH _ Hx Heq) as [-> ->]. auto.
Qed.

Lemma forallb_In_false (p : A -> bool) (l : list A) (a : A) :
  forallb p l = true -> p a = false -> ~ In a l.
Proof.
  intros Hall Hp Hin.
  rewrite forallb_forall in Hall. rewrite (Hall _ Hin) in Hp.
  discriminate.
Qed.

Lemma NoDup_map_injective {B : Type} (f : A -> B) (l : list A) :
  (forall x y, f x = f y -> x = y) -> NoDup l -> NoDup (map f l).
Proof.
  intros Hinj Hnd. induction Hnd as [|a l Hnotin Hnd IH]; simpl.
  - constructor.
  - constructor; [|exact IH].
    rewrite in_map_iff. intros (x & Hfx & Hin).
    apply Hinj in Hfx. subst x. contradiction.
Qed.
End ListFacts.

Lemma N_of_ascii_inj (a b : ascii) : N_of_ascii a = N_of_ascii b -> a = b.
Proof.
  intros H. rewrite <- (ascii_N_embedding a), <- (ascii_N_embedding b).
  now rewrite H.
Qed.

Lemma lit_inj (s1 s2 : string) : lit s1 = lit s2 -> s1 = s2.
Proof.
  revert s2. induction s1 as [|a s1 IH]; intros [|b s2] H;
    try discriminate; auto.
  unfold lit in H. simpl in H. injection H as Hab Hs.
  apply N_of_ascii_inj in Hab. subst b. f_equal. now apply IH.
Qed.

Lemma lit_String (a : ascii) (s : string) :
  lit (String a s) = N_of_ascii a :: lit s.
Proof. reflexivity. Qed.

Lemma decimal_digits (d : Decimal.uint) :
  forallb isDigit (lit (DecimalString.NilEmpty.string_of_uint d)) = true.
Proof.
  induction d; simpl DecimalString.NilEmpty.string_of_uint;
    rewrite ?lit_String; simpl forallb; auto.
Qed.

Lemma forallb_impl {A} (p q : A -> bool) (l : list A) :
  (forall a, p a = true -> q a = true) ->
  forallb p l = true -> forallb q l = true.
Proof.
  intros Hpq. rewrite !forallb_forall. auto.
Qed.

Lemma isDigit_usernameChar c : isDigit c = true -> usernameChar c = true.
Proof.
  unfold usernameChar. intros ->. now rewrite orb_true_r.
Qed.

Lemma numberToString_chars (z : Z) :
  forallb (fun c => isDigit c || isHyphen c) (numberToString z) = true.
Proof.
  unfold numberToString.
  destruct (Z.to_int z) as [d|d]; simpl DecimalString.NilEmpty.string_of_int.
  - eapply forallb_impl; [|apply decimal_digits].
    intros a ->. reflexivity.
  - rewrite lit_String. simpl forallb.
    eapply forallb_impl; [|apply decimal_digits].
    intros a ->. reflexivity.
Qed.

Lemma numberToString_inj (z1 z2 : Z) :
  numberToString z1 = numberToString z2 -> z1 = z2.
Proof.
  unfold numberToString. intros H. apply lit_inj in H.
  assert (Hd : Z.to_int z1 = Z.to_int z2).
  { pose proof (DecimalString.NilEmpty.isi (Z.to_int z1)) as H1.
    pose proof (DecimalString.NilEmpty.isi (Z.to_int z2)) as H2.
    rewrite H in H1. rewrite H1 in H2. now injection H2. }
  rewrite <- (DecimalZ.of_to z1), <- (DecimalZ.of_to z2). now rewrite Hd.
Qed.

Lemma hexByte_parse (b : byte) : parseHexByte (hexByte b) = Some b.
Proof. destruct b; vm_compute; reflexivity. Qed.

Lemma hexByte_length (b : byte) : length (hexByte b) = 2.
Proof. destruct b; vm_compute; reflexivity. Qed.

Lemma hexByte_chars (b : byte) : forallb isHexDigit (hexByte b) = true.
Proof. destruct b; vm_compute; reflexivity. Qed.

Lemma hexByte_inj (b1 b2 : byte) : hexByte b1 = hexByte b2 -> b1 = b2.
Proof.
  intros H. pose proof (hexByte_parse b1) as H1.
  rewrite H, hexByte_parse in H1. now injection H1.
Qed.

Lemma isHexDigit_usernameChar c : isHexDigit c = true -> usernameChar c = true.
Proof.
  unfold isHexDigit, usernameChar, isLower.
  rewrite !orb_true_iff, !andb_true_iff, !N.leb_le.
  intros [H|[H1 H2]]; [now left; right|].
  left; left. lia.
Qed.

Lemma hexByte_usernameChars (b : byte) :
  forallb usernameChar (hexByte b) = true.
Proof.
  eapply forallb_impl; [|apply hexByte_chars].
  apply isHexDigit_usernameChar.
Qed.

Lemma numberToString_usernameChars (z : Z) :
  forallb usernameChar (numberToString z) = true.
Proof.
  eapply forallb_impl; [|apply numberToString_chars].
  intros a. unfold usernameChar. rewrite !orb_true_iff. tauto.
Qed.

Lemma usernameOf_two (timestamp : Z) (b0 b1 : byte) :
  usernameOf timestamp [b0; b1] =
  lit "ci-test-" ++ numberToString timestamp ++ lit "-"
    ++ hexByte b0 ++ hexByte b1.
Proof.
  unfold usernameOf, join. simpl map. simpl concat.
  now rewrite app_nil_r.
Qed.

Lemma usernameOf_inj (t1 t2 : Z) (a1 b1 a2 b2 : byte) :
  usernameOf t1 [a1; b1] = usernameOf t2 [a2; b2] ->
  t1 = t2 /\ a1 = a2 /\ b1 = b2.
Proof.
  rewrite !usernameOf_two. intros H.
  apply app_inv_head in H.
  apply app_eq_same_tail_length in H.
  2:{ rewrite !length_app, !hexByte_length. reflexivity. }
  destruct H as [Ht H]. apply numberToString_inj in Ht.
  apply app_inv_head in H.
  apply app_eq_same_tail_length in H; [|now rewrite !hexByte_length].
  destruct H as [Ha Hb]. apply hexByte_inj in Ha, Hb. auto.
Qed.

Lemma generateUsername_run (env : Env) (st : State) :
  generateUsername env st =
  (Returned (usernameOf (Date_now env (clockReads st))
                        [randomByte env (bytesDrawn st);
                         randomByte env (S (bytesDrawn st))]),
   {| clockReads := S (clockReads st); bytesDrawn := bytesDrawn st + 2;
      sends := sends st; events := events st |}).
Proof. reflexivity. Qed.

Lemma generateUsernames_run (count : nat) (env : Env) (st : State) :
  generateUsernames count env st =
  (Returned (map (fun i => formatInputs (nthUsernameInputs env st i))
                 (seq 0 count)),
   {| clockReads := clockReads st + count;
      bytesDrawn := bytesDrawn st + 2 * count;
      sends := sends st; events := events st |}).
Proof.
  revert st. induction count as [|n IH]; intros st.
  - simpl. unfold ret. destruct st; simpl. now rewrite !Nat.add_0_r.
  - cbn [generateUsernames]. unfold bind at 1.
    rewrite generateUsername_run. unfold bind at 1. rewrite IH.
    unfold ret. cbn [clockReads bytesDrawn sends events].
    f_equal.
    + f_equal. cbn [seq map]. f_equal.
      * unfold formatInputs, nthUsernameInputs.
        now rewrite Nat.mul_0_r, !Nat.add_0_r.
      * rewrite <- seq_shift, map_map. apply map_ext. intros i.
        unfold formatInputs, nthUsernameInputs. cbn [clockReads bytesDrawn].
        replace (S (clockReads st) + i) with (clockReads st + S i) by lia.
        replace (bytesDrawn st + 2 + 2 * i) with (bytesDrawn st + 2 * S i)
          by lia.
        reflexivity.
    + f_equal; lia.
Qed.

Lemma formatInputs_inj (x y : Z * byte * byte) :
  formatInputs x = formatInputs y -> x = y.
Proof.
  destruct x as [[t1 a1] b1], y as [[t2 a2] b2]. cbn [formatInputs].
  intros H. apply usernameOf_inj in H. destruct H as (-> & -> & ->).
  reflexivity.
Qed.

(** The generator adds nothing of its own: calls that read the same clock
    value and draw the same two bytes return the same string. *)
Lemma generateUsername_same_inputs (env env' : Env) (st st' : State) :
  usernameInputs env st = usernameInputs env' st' ->
  fst (generateUsername env st) = fst (generateUsername env' st').
Proof.
  unfold usernameInputs. intros [= Ht Ha Hb].
  rewrite !generateUsername_run. cbn [fst]. now rewrite Ht, Ha, Hb.
Qed.

Example generateUsername_sample :
  fst (generateUsername sampleEnv initial)
  = Returned (lit "ci-test-1719432000000-0001").
Proof. reflexivity. Qed.

Example generateEmail_sample :
  generateEmail (lit "1719432000000-a3f1")
  = lit "ci-test-1719432000000-a3f1@test.example.com".
Proof. reflexivity. Qed.

Lemma hexByte_digits (b : byte) :
  exists h l : code_unit,
    hexByte b = [h; l] /\
    nth_error (lit "0123456789abcdef") (Byte.to_nat b / 16) = Some h /\
    nth_error (lit "0123456789abcdef") (Byte.to_nat b mod 16) = Some l.
Proof.
  destruct b; vm_compute; do 2 eexists; repeat split.
Qed.

Lemma usernameChar_ranges (c : code_unit) :
  usernameChar c = true ->
  (97 <= c <= 122)%N \/ (48 <= c <= 57)%N \/ c = 45%N.
Proof.
  unfold usernameChar, isLower, isDigit, isHyphen.
  rewrite !orb_true_iff, !andb_true_iff, !N.leb_le, N.eqb_eq. tauto.
Qed.

(** C9 (amended): every call of [generateUsername] returns a non-empty
    string made of the prefix "ci-test-", a time component, a hyphen and a
    random component.  The time component is the decimal numeral of the
    clock reading of the call, and read back as a number it is that
    reading, so it grows from call to call exactly as the clock does; the
    random component is the two random bytes as four lowercase hexadecimal
    digits.  All code units of the string are lowercase ASCII letters,
    decimal digits or hyphens. *)
Theorem generateUsername_format (env : Env) (st : State) :
  exists (u : jsstring) (time : string) (h0 l0 h1 l1 : code_unit),
    fst (generateUsername env st) = Returned u /\
    u <> [] /\
    u = lit "ci-test-" ++ lit time ++ lit "-" ++ [h0; l0; h1; l1] /\
    time = DecimalString.NilEmpty.string_of_int
             (Z.to_int (Date_now env (clockReads st))) /\
    option_map Z.of_int (DecimalString.NilEmpty.int_of_string time)
      = Some (Date_now env (clockReads st)) /\
    nth_error (lit "0123456789abcdef")
              (Byte.to_nat (randomByte env (bytesDrawn st)) / 16) = Some h0 /\
    nth_error (lit "0123456789abcdef")
              (Byte.to_nat (randomByte env (bytesDrawn st)) mod 16)
      = Some l0 /\
    nth_error (lit "0123456789abcdef")
              (Byte.to_nat (randomByte env (S (bytesDrawn st))) / 16)
      = Some h1 /\
    nth_error (lit "0123456789abcdef")
              (Byte.to_nat (randomByte env (S (bytesDrawn st))) mod 16)
      = Some l1 /\
    (forall c, In c u ->
               (97 <= c <= 122)%N \/ (48 <= c <= 57)%N \/ c = 45%N).
Proof.
  rewrite generateUsername_run. cbn [fst].
  destruct (hexByte_digits (randomByte env (bytesDrawn st)))
    as (h0 & l0 & Hb0 & Hh0 & Hl0).
  destruct (hexByte_digits (randomByte env (S (bytesDrawn st))))
    as (h1 & l1 & Hb1 & Hh1 & Hl1).
  exists (usernameOf (Date_now env (clockReads st))
            [randomByte env (bytesDrawn st);
             randomByte env (S (bytesDrawn st))]).
  exists (DecimalString.NilEmpty.string_of_int
            (Z.to_int (Date_now env (clockReads st)))).
  exists h0, l0, h1, l1.
  split; [reflexivity|]. rewrite usernameOf_two.
  split; [discriminate|].
  split; [unfold numberToString; now rewrite Hb0, Hb1|].
  split; [reflexivity|].
  split; [now rewrite DecimalString.NilEmpty.isi; cbn [option_map];
            rewrite DecimalZ.of_to|].
  repeat (split; [assumption|]).
  intros c Hc. apply usernameChar_ranges.
  assert (Hall : forallb usernameChar
                   (lit "ci-test-"
                      ++ numberToString (Date_now env (clockReads st))
                      ++ lit "-"
                      ++ hexByte (randomByte env (bytesDrawn st))
                      ++ hexByte (randomByte env (S (bytesDrawn st))))
                 = true).
  { rewrite !forallb_app, !hexByte_usernameChars,
      numberToString_usernameChars. reflexivity. }
  rewrite forallb_forall in Hall. exact (Hall c Hc).
Qed.

(** C9 as stated fails: the time component is the reading of the wall
    clock, which is not monotonic.  When the clock is set back by one
    millisecond between two calls, the later username carries the smaller
    time component. *)
Lemma generateUsername_time_not_monotonic :
  fst (generateUsernames 2 steppedBackEnv initial)
    = Returned [lit "ci-test-1719432000000-0001";
                lit "ci-test-1719431999999-0203"] /\
  (1719431999999 < 1719432000000)%Z.
Proof. split; reflexivity. Qed.

(** C8: the formatting ci-test-{timestamp}-{hex} is injective in the clock
    reading and the two random bytes: two calls of [generateUsername] whose
    inputs are not all the same return different strings, and N consecutive
    calls whose inputs are pairwise distinct return N pairwise distinct
    usernames. *)
Theorem generateUsername_distinct :
  (forall env st env' st' u u',
      fst (generateUsername env st) = Returned u ->
      fst (generateUsername env' st') = Returned u' ->
      usernameInputs env st <> usernameInputs env' st' ->
      u <> u') /\
  (forall env st count,
      NoDup (map (nthUsernameInputs env st) (seq 0 count)) ->
      exists us : list jsstring,
        fst (generateUsernames count env st) = Returned us /\
        length us = count /\
        NoDup us).
Proof.
  split.
  - intros env st env' st' u u'. rewrite !generateUsername_run. cbn [fst].
    intros [= <-] [= <-] Hne Heq. apply Hne.
    apply usernameOf_inj in Heq. destruct Heq as (Ht & Ha & Hb).
    unfold usernameInputs. now rewrite Ht, Ha, Hb.
  - intros env st count Hnd.
    rewrite generateUsernames_run. cbn [fst]. eexists.
    split; [reflexivity|]. split.
    + now rewrite length_map, length_seq.
    + rewrite <- (map_map (nthUsernameInputs env st) formatInputs).
      apply NoDup_map_injective; [|exact Hnd].
      apply formatInputs_inj.
Qed.

Lemma generateUsername_distinct_witness :
  (forall u u',
      fst (generateUsername sampleEnv initial) = Returned u ->
      fst (generateUsername shiftedEnv initial) = Returned u' ->
      u <> u') /\
  exists us : list jsstring,
    fst (generateUsernames 3 sampleEnv initial) = Returned us /\
    length us = 3 /\
    NoDup us.
Proof.
  split.
  - intros u u' Hu Hu'.
    apply (proj1 generateUsername_distinct
                 sampleEnv initial shiftedEnv initial u u' Hu Hu').
    vm_compute. discriminate.
  - apply (proj2 generateUsername_distinct sampleEnv initial 3).
    vm_compute. repeat constructor; simpl; intuition discriminate.
Defined.

(* ================================================================= *)
(** ** Passwords *)

Lemma index_alphanumeric (b : byte) :
  exists c : code_unit,
    index alphanumeric (Byte.to_nat b mod length alphanumeric) = Some [c] /\
    isAlnum c = true.
Proof.
  destruct b; vm_compute; eexists; split; reflexivity.
Qed.

Lemma passwordOf_suffix (randomBytes : list byte) :
  exists suffix : jsstring,
    passwordOf randomBytes = lit "CiTest1!" ++ suffix /\
    length suffix = length randomBytes /\
    forallb isAlnum suffix = true.
Proof.
  unfold passwordOf.
  induction randomBytes as [|b bs (suffix & Heq & Hlen & Hall)].
  - exists []. repeat split.
  - apply app_inv_head in Heq.
    destruct (index_alphanumeric b) as (c & Hc & Halnum).
    exists (c :: suffix). split; [|split].
    + f_equal. unfold join in *. cbn [map concat]. rewrite Hc, Heq.
      reflexivity.
    + simpl. now rewrite Hlen.
    + simpl. now rewrite Halnum, Hall.
Qed.

Lemma generatePassword_run (env : Env) (st : State) :
  generatePassword env st =
  (Returned (passwordOf (map (randomByte env) (seq (bytesDrawn st) 8))),
   {| clockReads := clockReads st; bytesDrawn := bytesDrawn st + 8;
      sends := sends st; events := events st |}).
Proof. reflexivity. Qed.

Lemma test_prefix (class : code_unit -> bool) (p s : jsstring) :
  test class p = true -> test class (p ++ s) = true.
Proof.
  unfold test. intros H. now rewrite existsb_app, H.
Qed.

Example generatePassword_sample :
  fst (generatePassword sampleEnv initial)
  = Returned (lit "CiTest1!ABCDEFGH").
Proof. reflexivity. Qed.

(** C2: whatever the eight random bytes are, [generatePassword] returns the
    prefix CiTest1! followed by eight alphanumeric characters, so the
    password has at least eight characters and matches [A-Z], [a-z], [0-9]
    and [^A-Za-z0-9]. *)
Theorem generatePassword_policy (env : Env) (st : State) :
  exists pw suffix : jsstring,
    fst (generatePassword env st) = Returned pw /\
    pw = lit "CiTest1!" ++ suffix /\
    length suffix = 8 /\
    forallb isAlnum suffix = true /\
    8 <= length pw /\
    test isUpper pw = true /\
    test isLower pw = true /\
    test isDigit pw = true /\
    test (fun c => negb (isAlnum c)) pw = true.
Proof.
  rewrite generatePassword_run. cbn [fst].
  destruct (passwordOf_suffix (map (randomByte env) (seq (bytesDrawn st) 8)))
    as (suffix & Heq & Hlen & Hall).
  rewrite length_map, length_seq in Hlen.
  exists (lit "CiTest1!" ++ suffix), suffix.
  split; [now rewrite Heq|]. split; [reflexivity|].
  split; [exact Hlen|]. split; [exact Hall|].
  split; [rewrite length_app; simpl; lia|].
  repeat split; apply test_prefix; reflexivity.
Qed.

(* ================================================================= *)
(** ** E-mail addresses and the pattern of the tests *)

Section Matching.
Import Regex.

Lemma exec_chars_exact (l s : jsstring) (caps : list jsstring) :
  exec (map Chr l) s = Some caps -> s = l /\ caps = [].
Proof.
  revert s. induction l as [|c l IH]; intros [|x s]; simpl;
    try discriminate.
  - now intros [= <-].
  - destruct (N.eqb_spec x c) as [->|]; [|discriminate].
    intros H. destruct (IH _ H) as [-> ->]. auto.
Qed.

Lemma exec_chars_refl (l : jsstring) : exec (map Chr l) l = Some [].
Proof.
  induction l as [|c l IH]; simpl; [reflexivity|].
  now rewrite N.eqb_refl.
Qed.

Lemma exec_chars_app (l : jsstring) (p : pattern) (s : jsstring) :
  exec (map Chr l ++ p) (l ++ s) = exec p s.
Proof.
  induction l as [|c l IH]; simpl; [reflexivity|].
  now rewrite N.eqb_refl.
Qed.

(** The two equations of the greedy group. *)
Lemma exec_group_nil (p : pattern) : exec (DotPlusGroup :: p) [] = None.
Proof. reflexivity. Qed.

Lemma exec_group_cons (p : pattern) (x : code_unit) (s : jsstring) :
  exec (DotPlusGroup :: p) (x :: s) =
  if isLineTerminator x then None
  else match exec (DotPlusGroup :: p) s with
       | Some (cap :: caps) => Some ((x :: cap) :: caps)
       | Some [] => None
       | None => match exec p s with
                 | Some caps => Some ([x] :: caps)
                 | None => None
                 end
       end.
Proof. reflexivity. Qed.

(** Whatever [(.+)literal] matches is a non-empty run without line
    terminators followed by the literal. *)
Lemma exec_group_sound (l s : jsstring) (caps : list jsstring) :
  exec (DotPlusGroup :: map Chr l) s = Some caps ->
  exists cap, caps = [cap] /\ s = cap ++ l /\ cap <> [] /\
              noLineTerminator cap = true.
Proof.
  revert caps. induction s as [|x s IH]; intros caps.
  - rewrite exec_group_nil. discriminate.
  - rewrite exec_group_cons.
    destruct (isLineTerminator x) eqn:Hx; [discriminate|].
    destruct (exec (DotPlusGroup :: map Chr l) s) as [[|cap rest]|].
    + discriminate.
    + intros [= <-].
      destruct (IH _ eq_refl) as (cap' & [= -> ->] & -> & _ & Hno).
      exists (x :: cap'). repeat split; try discriminate.
      unfold noLineTerminator in *. simpl. now rewrite Hx, Hno.
    + destruct (exec (map Chr l) s) as [caps'|] eqn:Hl; [|discriminate].
      intros [= <-]. apply exec_chars_exact in Hl. destruct Hl as [-> ->].
      exists [x]. repeat split; try discriminate.
      unfold noLineTerminator. simpl. now rewrite Hx.
Qed.

Lemma exec_group_complete (l t : jsstring) :
  t <> [] -> noLineTerminator t = true ->
  exec (DotPlusGroup :: map Chr l) (t ++ l) = Some [t].
Proof.
  induction t as [|x t IH]; [congruence|]. intros _ Hno.
  unfold noLineTerminator in Hno. simpl in Hno.
  apply andb_true_iff in Hno. destruct Hno as [Hx Hno].
  apply negb_true_iff in Hx.
  simpl app. rewrite exec_group_cons, Hx.
  destruct t as [|y t].
  - simpl app.
    destruct (exec (DotPlusGroup :: map Chr l) l) as [caps|] eqn:Hg.
    + apply exec_group_sound in Hg.
      destruct Hg as (cap & _ & Heq & Hne & _).
      apply (f_equal (@length _)) in Heq. rewrite length_app in Heq.
      destruct cap; [congruence|simpl in Heq; lia].
    + now rewrite exec_chars_refl.
  - rewrite IH; [reflexivity|discriminate|exact Hno].
Qed.

Lemma exec_emailPattern (t : jsstring) :
  exec emailPattern (generateEmail t) =
  exec (DotPlusGroup :: map Chr (lit "@test.example.com"))
       (t ++ lit "@test.example.com").
Proof.
  unfold emailPattern, generateEmail, chars. apply exec_chars_app.
Qed.

(** The pattern matches a generated address only for a non-empty token
    without line terminators. *)
Lemma generateEmail_match_only (t : jsstring) (caps : list jsstring) :
  exec emailPattern (generateEmail t) = Some caps ->
  t <> [] /\ noLineTerminator t = true /\ caps = [t].
Proof.
  rewrite exec_emailPattern. intros H. apply exec_group_sound in H.
  destruct H as (cap & -> & Heq & Hne & Hno).
  apply app_inv_tail in Heq. subst cap. auto.
Qed.

Lemma noLineTerminator_intro (t : jsstring) :
  (forall c, In c t ->
             c <> 10%N /\ c <> 13%N /\ c <> 0x2028%N /\ c <> 0x2029%N) ->
  noLineTerminator t = true.
Proof.
  intros H. unfold noLineTerminator. apply forallb_forall. intros c Hc.
  destruct (H c Hc) as (H1 & H2 & H3 & H4).
  unfold isLineTerminator.
  apply N.eqb_neq in H1, H2, H3, H4. now rewrite H1, H2, H3, H4.
Qed.

(** C3 (amended): for every non-empty token [t], [generateEmail t] is
    "ci-test-" ++ t ++ "@test.example.com"; when the token moreover holds
    no line terminator (LF, CR, U+2028, U+2029), the address matches
    ^ci-test-(.+)@test\.example\.com$ and the group captures exactly the
    token. *)
Theorem generateEmail_matches (t : jsstring) :
  t <> [] ->
  generateEmail t = lit "ci-test-" ++ t ++ lit "@test.example.com" /\
  ((forall c, In c t ->
              c <> 10%N /\ c <> 13%N /\ c <> 0x2028%N /\ c <> 0x2029%N) ->
   exec emailPattern (generateEmail t) = Some [t]).
Proof.
  intros Hne. split; [reflexivity|]. intros Hno.
  rewrite exec_emailPattern. apply exec_group_complete; [exact Hne|].
  now apply noLineTerminator_intro.
Qed.

Lemma generateEmail_matches_witness :
  generateEmail (lit "1719432000000-a3f1") =
    lit "ci-test-" ++ lit "1719432000000-a3f1" ++ lit "@test.example.com" /\
  exec emailPattern (generateEmail (lit "1719432000000-a3f1")) =
    Some [lit "1719432000000-a3f1"].
Proof.
  assert (Hne : lit "1719432000000-a3f1" <> []) by discriminate.
  destruct (generateEmail_matches Hne) as [Heq Hmatch].
  split; [exact Heq|]. apply Hmatch.
  intros c Hc. vm_compute in Hc.
  repeat (destruct Hc as [<-|Hc]; [repeat split; discriminate|]).
  contradiction.
Defined.

(** C3 as stated fails: the token "a\nb" is non-empty, yet the address
    built from it does not match the pattern, since [.] does not match a
    line feed. *)
Lemma generateEmail_newline_no_match :
  [97%N; 10%N; 98%N] <> [] /\
  exec emailPattern (generateEmail [97%N; 10%N; 98%N]) = None.
Proof. split; [discriminate|reflexivity]. Qed.

End Matching.

(* ================================================================= *)
(** ** Stripping the prefix and building the address *)

Lemma startsWith_app (p s : jsstring) : startsWith p (p ++ s) = true.
Proof.
  induction p as [|c p IH]; simpl; [reflexivity|].
  now rewrite N.eqb_refl.
Qed.

Lemma replace_unfold (p r s : jsstring) :
  replace p r s =
  if startsWith p s then r ++ skipn (length p) s
  else match s with
       | [] => []
       | c :: cs => c :: replace p r cs
       end.
Proof. destruct s; reflexivity. Qed.

Lemma replace_leading (p s : jsstring) : replace p [] (p ++ s) = s.
Proof.
  rewrite replace_unfold, startsWith_app. simpl app.
  rewrite skipn_app, skipn_all, Nat.sub_diag. reflexivity.
Qed.

Lemma startsWith_In (p s : jsstring) (c : code_unit) :
  startsWith p s = true -> In c p -> In c s.
Proof.
  revert s. induction p as [|a p IH]; intros [|b s]; simpl;
    try contradiction; try discriminate.
  rewrite andb_true_iff. intros [Hab Hps] [<-|Hin].
  - apply N.eqb_eq in Hab. now left.
  - right. now apply IH.
Qed.

Lemma indexOf_In (p s : jsstring) (n : nat) (c : code_unit) :
  indexOf p s = Some n -> In c p -> In c s.
Proof.
  revert n. induction s as [|b s IH]; intros n; cbn [indexOf].
  - destruct (startsWith p []) eqn:Hp; [|discriminate].
    intros _ Hin. exact (startsWith_In _ _ _ Hp Hin).
  - destruct (startsWith p (b :: s)) eqn:Hp.
    + intros _ Hin. exact (startsWith_In _ _ _ Hp Hin).
    + destruct (indexOf p s) as [m|]; [|discriminate].
      intros _ Hin. right. exact (IH m eq_refl Hin).
Qed.

Lemma usernameOf_prefix (timestamp : Z) (b0 b1 : byte) :
  replace (lit "ci-test-") [] (usernameOf timestamp [b0; b1]) =
  numberToString timestamp ++ lit "-" ++ hexByte b0 ++ hexByte b1.
Proof.
  rewrite usernameOf_two. apply replace_leading.
Qed.

Lemma generateEmail_generated (env : Env) (st : State) :
  generateEmail (replace (lit "ci-test-") [] (generatedUsername env st)) =
  generatedEmail env st.
Proof.
  unfold generatedEmail, generatedUsername, generateEmail.
  rewrite usernameOf_prefix, usernameOf_two.
  now rewrite <- !app_assoc.
Qed.

(* ================================================================= *)
(** ** Runs of [createTestUser] *)

(** Two states agree when their counters agree and their event lists agree
    up to the bracketing of [++]. *)
Ltac same_state :=
  cbn [clockReads bytesDrawn sends events];
  unfold provisioned, withEvents, signUpEvents, confirmEvents, failureEvent;
  f_equal; f_equal; try lia;
  rewrite <- ?app_assoc; reflexivity.

(** A run that passes the three checks, by the answers of the provider. *)
Lemma createTestUser_run (cfg : Config) (env : Env) (st : State) :
  configured cfg ->
  createTestUser cfg env st =
  match cognitoSend env (sends st) (signUpOf cfg env st) with
  | Some e =>
      (Exited 1%Z,
       provisioned st 1 (signUpEvents cfg env st ++ [failureEvent e]))
  | None =>
      match cognitoSend env (S (sends st)) (adminConfirmOf cfg env st) with
      | Some e =>
          (Exited 1%Z,
           provisioned st 2
             (signUpEvents cfg env st ++ confirmEvents cfg env st
                ++ [failureEvent e]))
      | None =>
          (Returned {| username := generatedEmail env st;
                       password := generatedPassword env st |},
           provisioned st 2
             (signUpEvents cfg env st ++ confirmEvents cfg env st
                ++ [ConsoleLog [LogString (checkMark
                      ++ lit " AdminConfirmSignUp succeeded")]]))
      end
  end.
Proof.
  intros (Hp & Hc & Hr). unfold createTestUser.
  rewrite Hp, Hc, Hr.
  unfold generateUsername, generatePassword, console_log, console_error,
    newCognitoIdentityProviderClient, process_exit, when, try_catch, bind,
    ret, emit, DateNow, getRandomValues, send.
  cbn [negb clockReads bytesDrawn sends events seq map fst snd].
  change (usernameOf (Date_now env (clockReads st)) _)
    with (generatedUsername env st).
  rewrite generateEmail_generated.
  change (passwordOf _) with (generatedPassword env st).
  change (SignUpCommand _) with (signUpOf cfg env st).
  change (AdminConfirmSignUpCommand _) with (adminConfirmOf cfg env st).
  destruct (cognitoSend env (sends st) (signUpOf cfg env st));
    [same_state|].
  cbn [clockReads bytesDrawn sends events].
  destruct (cognitoSend env (S (sends st)) (adminConfirmOf cfg env st));
    same_state.
Qed.

(** A run that fails one of the three checks: the first failing check
    decides the message, and nothing else happens. *)
Lemma createTestUser_no_pool (cfg : Config) (env : Env) (st : State) :
  truthy (aws_user_pools_id cfg) = false ->
  createTestUser cfg env st =
  (Exited 1%Z,
   withEvents st
     [ConsoleError [LogString (missingMessage "aws_user_pools_id")]]).
Proof.
  intros Hp. unfold createTestUser. rewrite Hp. reflexivity.
Qed.

Lemma createTestUser_no_client (cfg : Config) (env : Env) (st : State) :
  truthy (aws_user_pools_id cfg) = true ->
  truthy (aws_user_pools_web_client_id cfg) = false ->
  createTestUser cfg env st =
  (Exited 1%Z,
   withEvents st
     [ConsoleError
        [LogString (missingMessage "aws_user_pools_web_client_id")]]).
Proof.
  intros Hp Hc. unfold createTestUser. rewrite Hp, Hc. reflexivity.
Qed.

Lemma createTestUser_no_region (cfg : Config) (env : Env) (st : State) :
  truthy (aws_user_pools_id cfg) = true ->
  truthy (aws_user_pools_web_client_id cfg) = true ->
  truthy (aws_cognito_region cfg) = false ->
  createTestUser cfg env st =
  (Exited 1%Z,
   withEvents st
     [ConsoleError [LogString (missingMessage "aws_cognito_region")]]).
Proof.
  intros Hp Hc Hr. unfold createTestUser. rewrite Hp, Hc, Hr. reflexivity.
Qed.



Lemma sentCommands_app (xs ys : list Event) :
  sentCommands (xs ++ ys) = sentCommands xs ++ sentCommands ys.
Proof. apply flat_map_app. Qed.

Lemma configured_sample : configured sampleConfig.
Proof. repeat split. Qed.

Example createTestUser_sample :
  fst (createTestUser sampleConfig sampleEnv initial)
  = Returned
      {| username := lit "ci-test-1719432000000-0001@test.example.com";
         password := lit "CiTest1!CDEFGHIJ" |}.
Proof. reflexivity. Qed.

(** C1: with the three configuration values present and both provider
    calls succeeding, [createTestUser] returns the generated address
    ci-test-<token>@test.example.com as username, the token being what
    follows the prefix of the generated username, and the generated
    password; the same address is the Username of both commands. *)
Theorem createTestUser_success (cfg : Config) (env : Env) (st : State) :
  configured cfg ->
  cognitoSend env (sends st) (signUpOf cfg env st) = None ->
  cognitoSend env (S (sends st)) (adminConfirmOf cfg env st) = None ->
  exists (token email pw : jsstring) (evs : list Event),
    createTestUser cfg env st =
      (Returned {| username := email; password := pw |},
       provisioned st 2 evs) /\
    fst (generateUsername env st) = Returned (lit "ci-test-" ++ token) /\
    email = lit "ci-test-" ++ token ++ lit "@test.example.com" /\
    fst (generatePassword env (snd (generateUsername env st))) =
      Returned pw /\
    sentCommands evs =
      [SignUpCommand
         {| ClientId := aws_user_pools_web_client_id cfg;
            su_Username := email;
            Password := pw;
            UserAttributes := [(lit "email", email)] |};
       AdminConfirmSignUpCommand
         {| UserPoolId := aws_user_pools_id cfg;
            ac_Username := email |}].
Proof.
  intros Hcfg Hsign Hconfirm.
  rewrite (createTestUser_run env st Hcfg), Hsign, Hconfirm.
  exists (numberToString (Date_now env (clockReads st)) ++ lit "-"
            ++ hexByte (randomByte env (bytesDrawn st))
            ++ hexByte (randomByte env (S (bytesDrawn st)))).
  exists (generatedEmail env st), (generatedPassword env st).
  eexists. split; [reflexivity|].
  rewrite generateUsername_run. cbn [fst snd].
  split; [now rewrite usernameOf_two|].
  split.
  { unfold generatedEmail, generatedUsername. rewrite usernameOf_two.
    now rewrite <- !app_assoc. }
  split; reflexivity.
Qed.

Lemma createTestUser_success_witness :
  exists (token email pw : jsstring) (evs : list Event),
    createTestUser sampleConfig sampleEnv initial =
      (Returned {| username := email; password := pw |},
       provisioned initial 2 evs) /\
    fst (generateUsername sampleEnv initial)
      = Returned (lit "ci-test-" ++ token) /\
    email = lit "ci-test-" ++ token ++ lit "@test.example.com" /\
    fst (generatePassword sampleEnv (snd (generateUsername sampleEnv initial)))
      = Returned pw /\
    sentCommands evs =
      [SignUpCommand
         {| ClientId := aws_user_pools_web_client_id sampleConfig;
            su_Username := email;
            Password := pw;
            UserAttributes := [(lit "email", email)] |};
       AdminConfirmSignUpCommand
         {| UserPoolId := aws_user_pools_id sampleConfig;
            ac_Username := email |}].
Proof.
  apply (createTestUser_success (cfg := sampleConfig) sampleEnv initial).
  - exact configured_sample.
  - reflexivity.
  - reflexivity.
Defined.

Lemma truthy_false (x : option jsstring) :
  x = None \/ x = Some [] -> truthy x = false.
Proof. intros [->| ->]; reflexivity. Qed.

Lemma truthy_true (x : option jsstring) (p : jsstring) :
  x = Some p -> p <> [] -> truthy x = true.
Proof. intros -> Hp. destruct p; [congruence|reflexivity]. Qed.

Lemma truthy_cases (x : option jsstring) :
  (x = None \/ x = Some []) \/ (exists p, x = Some p /\ p <> []).
Proof.
  destruct x as [[|c p]|]; auto.
  right. eexists. split; [reflexivity|discriminate].
Qed.

(** C4: when the pool identifier or the client identifier is missing or
    empty, [createTestUser] writes the message naming the first such field
    to standard error and exits with status 1; the clock is not read, no
    random byte is drawn, no client is constructed and no command is
    sent. *)
Theorem createTestUser_missing_required
        (cfg : Config) (env : Env) (st : State) :
  (aws_user_pools_id cfg = None \/ aws_user_pools_id cfg = Some []) \/
  (aws_user_pools_web_client_id cfg = None \/
   aws_user_pools_web_client_id cfg = Some []) ->
  exists message : jsstring,
    ((aws_user_pools_id cfg = None \/ aws_user_pools_id cfg = Some []) /\
     message =
       [0x274c%N] ++ lit " Missing aws_user_pools_id in Amplify configuration"
     \/
     (exists p, aws_user_pools_id cfg = Some p /\ p <> []) /\
     (aws_user_pools_web_client_id cfg = None \/
      aws_user_pools_web_client_id cfg = Some []) /\
     message =
       [0x274c%N]
         ++ lit " Missing aws_user_pools_web_client_id in Amplify configuration")
    /\
    createTestUser cfg env st =
      (Exited 1%Z,
       {| clockReads := clockReads st;
          bytesDrawn := bytesDrawn st;
          sends := sends st;
          events := events st ++ [ConsoleError [LogString message]] |}).
Proof.
  intros H.
  destruct (truthy_cases (aws_user_pools_id cfg)) as [Hp|Hp].
  - eexists. split; [left; split; [exact Hp|reflexivity]|].
    apply createTestUser_no_pool. now apply truthy_false.
  - destruct H as [H|Hc].
    { destruct Hp as (p & Hp & Hne). destruct H as [H|H]; congruence. }
    eexists. split; [right; split; [exact Hp|split; [exact Hc|reflexivity]]|].
    destruct Hp as (p & Hp & Hne).
    apply createTestUser_no_client;
      [now apply (truthy_true Hp)|now apply truthy_false].
Qed.

Lemma createTestUser_missing_required_witness :
  (exists message : jsstring,
     ((aws_user_pools_id noPoolConfig = None \/
       aws_user_pools_id noPoolConfig = Some []) /\
      message =
        [0x274c%N] ++ lit " Missing aws_user_pools_id in Amplify configuration"
      \/
      (exists p, aws_user_pools_id noPoolConfig = Some p /\ p <> []) /\
      (aws_user_pools_web_client_id noPoolConfig = None \/
       aws_user_pools_web_client_id noPoolConfig = Some []) /\
      message =
        [0x274c%N]
          ++ lit " Missing aws_user_pools_web_client_id in Amplify configuration")
     /\
     createTestUser noPoolConfig sampleEnv initial =
       (Exited 1%Z,
        {| clockReads := 0; bytesDrawn := 0; sends := 0;
           events := [] ++ [ConsoleError [LogString message]] |})) /\
  (exists message : jsstring,
     ((aws_user_pools_id emptyClientConfig = None \/
       aws_user_pools_id emptyClientConfig = Some []) /\
      message =
        [0x274c%N] ++ lit " Missing aws_user_pools_id in Amplify configuration"
      \/
      (exists p, aws_user_pools_id emptyClientConfig = Some p /\ p <> []) /\
      (aws_user_pools_web_client_id emptyClientConfig = None \/
       aws_user_pools_web_client_id emptyClientConfig = Some []) /\
      message =
        [0x274c%N]
          ++ lit " Missing aws_user_pools_web_client_id in Amplify configuration")
     /\
     createTestUser emptyClientConfig sampleEnv initial =
       (Exited 1%Z,
        {| clockReads := 0; bytesDrawn := 0; sends := 0;
           events := [] ++ [ConsoleError [LogString message]] |})).
Proof.
  split.
  - apply (createTestUser_missing_required noPoolConfig sampleEnv initial).
    left. left. reflexivity.
  - apply (createTestUser_missing_required
             emptyClientConfig sampleEnv initial).
    right. right. reflexivity.
Defined.

Lemma sentCommands_signUpEvents (cfg : Config) (env : Env) (st : State) :
  sentCommands (signUpEvents cfg env st) = [signUpOf cfg env st].
Proof. reflexivity. Qed.

Lemma sentCommands_confirmEvents (cfg : Config) (env : Env) (st : State) :
  sentCommands (confirmEvents cfg env st) = [adminConfirmOf cfg env st].
Proof. reflexivity. Qed.

(** C5: with the three configuration values present and the SignUp call
    rejected, [createTestUser] writes the failure marker followed by the
    message of the error to standard error and exits with status 1; SignUp
    is the only command sent, once, and AdminConfirmSignUp is never sent. *)
Theorem createTestUser_signUp_fails
        (cfg : Config) (env : Env) (st : State) (e : thrown) :
  configured cfg ->
  cognitoSend env (sends st) (signUpOf cfg env st) = Some e ->
  exists (evs : list Event) (st' : State),
    createTestUser cfg env st = (Exited 1%Z, st') /\
    events st' = events st ++ evs /\
    evs = signUpEvents cfg env st
            ++ [ConsoleError [LogString ([0x274c%N] ++ lit " Failed to create test user:"); errorPayload e]] /\
    (forall message, e = ErrorInstance message ->
                     errorPayload e = LogString message) /\
    sends st' = sends st + 1 /\
    sentCommands evs = [signUpOf cfg env st] /\
    (forall input,
        ~ In (ClientSend (AdminConfirmSignUpCommand input)) evs).
Proof.
  intros Hcfg Hsign.
  rewrite (createTestUser_run env st Hcfg), Hsign.
  do 2 eexists. split; [reflexivity|].
  split; [reflexivity|]. split; [reflexivity|].
  split; [now intros message ->|].
  split; [reflexivity|].
  split; [now rewrite sentCommands_app, sentCommands_signUpEvents|].
  intros input Hin. unfold signUpEvents, signUpOf, failureEvent in Hin.
  simpl in Hin. intuition discriminate.
Qed.

Lemma createTestUser_signUp_fails_witness :
  exists (evs : list Event) (st' : State),
    createTestUser sampleConfig
      (rejectingEnv 0 (ErrorInstance (lit "User already exists"))) initial
      = (Exited 1%Z, st') /\
    events st' = events initial ++ evs /\
    evs = signUpEvents sampleConfig
            (rejectingEnv 0 (ErrorInstance (lit "User already exists")))
            initial
            ++ [ConsoleError
                  [LogString ([0x274c%N] ++ lit " Failed to create test user:");
                   errorPayload (ErrorInstance (lit "User already exists"))]] /\
    (forall message,
        ErrorInstance (lit "User already exists") = ErrorInstance message ->
        errorPayload (ErrorInstance (lit "User already exists"))
          = LogString message) /\
    sends st' = sends initial + 1 /\
    sentCommands evs =
      [signUpOf sampleConfig
         (rejectingEnv 0 (ErrorInstance (lit "User already exists")))
         initial] /\
    (forall input,
        ~ In (ClientSend (AdminConfirmSignUpCommand input)) evs).
Proof.
  apply (createTestUser_signUp_fails
           (cfg := sampleConfig)
           (rejectingEnv 0 (ErrorInstance (lit "User already exists")))
           initial).
  - exact configured_sample.
  - reflexivity.
Defined.

(** C6: when SignUp succeeds and AdminConfirmSignUp is rejected,
    [createTestUser] writes the failure marker followed by the message of
    the error to standard error and exits with status 1; the two commands
    are the only ones sent, and nothing follows the failure message, so the
    registered user is left as it is. *)
Theorem createTestUser_confirm_fails
        (cfg : Config) (env : Env) (st : State) (e : thrown) :
  configured cfg ->
  cognitoSend env (sends st) (signUpOf cfg env st) = None ->
  cognitoSend env (S (sends st)) (adminConfirmOf cfg env st) = Some e ->
  exists (evs : list Event) (st' : State),
    createTestUser cfg env st = (Exited 1%Z, st') /\
    events st' = events st ++ evs /\
    evs = signUpEvents cfg env st ++ confirmEvents cfg env st
            ++ [ConsoleError [LogString ([0x274c%N] ++ lit " Failed to create test user:"); errorPayload e]] /\
    (forall message, e = ErrorInstance message ->
                     errorPayload e = LogString message) /\
    sends st' = sends st + 2 /\
    sentCommands evs = [signUpOf cfg env st; adminConfirmOf cfg env st].
Proof.
  intros Hcfg Hsign Hconfirm.
  rewrite (createTestUser_run env st Hcfg), Hsign, Hconfirm.
  do 2 eexists. split; [reflexivity|].
  split; [reflexivity|]. split; [reflexivity|].
  split; [now intros message ->|].
  split; [reflexivity|].
  now rewrite !sentCommands_app, sentCommands_signUpEvents,
    sentCommands_confirmEvents.
Qed.

Lemma createTestUser_confirm_fails_witness :
  exists (evs : list Event) (st' : State),
    createTestUser sampleConfig
      (rejectingEnv 1 (ErrorInstance (lit "User cannot be confirmed")))
      initial
      = (Exited 1%Z, st') /\
    events st' = events initial ++ evs /\
    evs = signUpEvents sampleConfig
            (rejectingEnv 1 (ErrorInstance (lit "User cannot be confirmed")))
            initial
          ++ confirmEvents sampleConfig
               (rejectingEnv 1
                  (ErrorInstance (lit "User cannot be confirmed")))
               initial
          ++ [ConsoleError
                [LogString ([0x274c%N] ++ lit " Failed to create test user:");
                 errorPayload
                   (ErrorInstance (lit "User cannot be confirmed"))]] /\
    (forall message,
        ErrorInstance (lit "User cannot be confirmed")
          = ErrorInstance message ->
        errorPayload (ErrorInstance (lit "User cannot be confirmed"))
          = LogString message) /\
    sends st' = sends initial + 2 /\
    sentCommands evs =
      [signUpOf sampleConfig
         (rejectingEnv 1 (ErrorInstance (lit "User cannot be confirmed")))
         initial;
       adminConfirmOf sampleConfig
         (rejectingEnv 1 (ErrorInstance (lit "User cannot be confirmed")))
         initial].
Proof.
  apply (createTestUser_confirm_fails
           (cfg := sampleConfig)
           (rejectingEnv 1 (ErrorInstance (lit "User cannot be confirmed")))
           initial).
  - exact configured_sample.
  - reflexivity.
  - reflexivity.
Defined.

(** C7 (amended): the region is checked like the two identifiers: with
    both identifiers present and the region missing or empty,
    [createTestUser] writes the message naming aws_cognito_region to
    standard error and exits with status 1 before any credential is
    generated, any client constructed or any command sent; only a region
    that passes the check reaches the client. *)
Theorem createTestUser_region_checked
        (cfg : Config) (env : Env) (st : State) :
  truthy (aws_user_pools_id cfg) = true ->
  truthy (aws_user_pools_web_client_id cfg) = true ->
  (truthy (aws_cognito_region cfg) = false ->
   createTestUser cfg env st =
     (Exited 1%Z,
      {| clockReads := clockReads st;
         bytesDrawn := bytesDrawn st;
         sends := sends st;
         events :=
           events st
             ++ [ConsoleError
                   [LogString (missingMessage "aws_cognito_region")]] |})) /\
  (truthy (aws_cognito_region cfg) = true ->
   exists evs,
     events (snd (createTestUser cfg env st)) = events st ++ evs /\
     In (NewCognitoClient (aws_cognito_region cfg)) evs).
Proof.
  intros Hp Hc. split.
  - intros Hr. now apply createTestUser_no_region.
  - intros Hr.
    rewrite (@createTestUser_run cfg env st (conj Hp (conj Hc Hr))).
    destruct (cognitoSend env (sends st) (signUpOf cfg env st));
      [|destruct (cognitoSend env (S (sends st)) (adminConfirmOf cfg env st))];
      cbn [snd provisioned events]; eexists; (split; [reflexivity|]);
      unfold signUpEvents; simpl; auto.
Qed.

Lemma createTestUser_region_checked_witness :
  (truthy (aws_cognito_region noRegionConfig) = false ->
   createTestUser noRegionConfig sampleEnv initial =
     (Exited 1%Z,
      {| clockReads := 0; bytesDrawn := 0; sends := 0;
         events :=
           [] ++ [ConsoleError
                    [LogString (missingMessage "aws_cognito_region")]] |})) /\
  (truthy (aws_cognito_region noRegionConfig) = true ->
   exists evs,
     events (snd (createTestUser noRegionConfig sampleEnv initial))
       = events initial ++ evs /\
     In (NewCognitoClient (aws_cognito_region noRegionConfig)) evs).
Proof.
  apply (createTestUser_region_checked noRegionConfig sampleEnv initial);
    reflexivity.
Defined.

(** C7 as stated fails: with both identifiers present and no region, the
    run ends with the message naming aws_cognito_region and status 1, and
    the missing region is never passed to a client. *)
Lemma createTestUser_region_is_validated :
  truthy (aws_user_pools_id noRegionConfig) = true /\
  truthy (aws_user_pools_web_client_id noRegionConfig) = true /\
  aws_cognito_region noRegionConfig = None /\
  createTestUser noRegionConfig sampleEnv initial =
    (Exited 1%Z,
     {| clockReads := 0; bytesDrawn := 0; sends := 0;
        events :=
          [ConsoleError
             [LogString (crossMark ++
                lit " Missing aws_cognito_region in Amplify configuration")]]
     |}) /\
  ~ In (NewCognitoClient None)
       (events (snd (createTestUser noRegionConfig sampleEnv initial))).
Proof.
  repeat split. simpl. intuition discriminate.
Qed.

(* ================================================================= *)
(** ** From the username to the address *)

Lemma isHexDigit_tokenChar c : isHexDigit c = true -> tokenChar c = true.
Proof.
  unfold tokenChar. intros ->. now rewrite orb_true_r.
Qed.

Lemma token_chars (timestamp : Z) (b0 b1 : byte) :
  forallb tokenChar
    (numberToString timestamp ++ lit "-" ++ hexByte b0 ++ hexByte b1) = true.
Proof.
  rewrite !forallb_app.
  rewrite (forallb_impl _ tokenChar _ isHexDigit_tokenChar (hexByte_chars b0)).
  rewrite (forallb_impl _ tokenChar _ isHexDigit_tokenChar (hexByte_chars b1)).
  rewrite (@forallb_impl _ (fun c => isDigit c || isHyphen c) tokenChar
             (numberToString timestamp)).
  - reflexivity.
  - intros a. unfold tokenChar. intros ->. reflexivity.
  - apply numberToString_chars.
Qed.

(** C10: the output of [generateUsername] begins with "ci-test-" and has no
    second occurrence of it, so stripping the first occurrence removes
    exactly that prefix, and [generateEmail] applied to the rest gives the
    whole username followed by "@test.example.com"; this is the Username
    [createTestUser] registers. *)
Theorem generateEmail_of_stripped_username (env : Env) (st : State) :
  exists u : jsstring,
    fst (generateUsername env st) = Returned u /\
    startsWith (lit "ci-test-") u = true /\
    lit "ci-test-" ++ replace (lit "ci-test-") [] u = u /\
    indexOf (lit "ci-test-") (replace (lit "ci-test-") [] u) = None /\
    generateEmail (replace (lit "ci-test-") [] u)
      = u ++ lit "@test.example.com" /\
    (forall cfg, configured cfg ->
       exists input evs,
         events (snd (createTestUser cfg env st))
           = events st ++ evs /\
         hd_error (sentCommands evs) = Some (SignUpCommand input) /\
         su_Username input = u ++ lit "@test.example.com").
Proof.
  rewrite generateUsername_run. cbn [fst]. eexists.
  split; [reflexivity|].
  rewrite usernameOf_prefix, usernameOf_two.
  split; [apply startsWith_app|].
  split; [reflexivity|].
  split.
  { destruct (indexOf _ _) as [n|] eqn:Hidx; [|reflexivity].
    exfalso.
    apply (forallb_In_false _ _ 105%N
             (token_chars (Date_now env (clockReads st))
                (randomByte env (bytesDrawn st))
                (randomByte env (S (bytesDrawn st)))));
      [reflexivity|].
    apply (indexOf_In _ _ _ Hidx). simpl. tauto. }
  split.
  { unfold generateEmail. now rewrite <- !app_assoc. }
  intros cfg Hcfg.
  rewrite (createTestUser_run env st Hcfg).
  assert (Hu : generatedEmail env st =
               (lit "ci-test-" ++ numberToString (Date_now env (clockReads st))
                  ++ lit "-" ++ hexByte (randomByte env (bytesDrawn st))
                  ++ hexByte (randomByte env (S (bytesDrawn st))))
                 ++ lit "@test.example.com").
  { unfold generatedEmail, generatedUsername. now rewrite usernameOf_two. }
  destruct (cognitoSend env (sends st) (signUpOf cfg env st));
    [|destruct (cognitoSend env (S (sends st)) (adminConfirmOf cfg env st))];
    cbn [snd provisioned events]; do 2 eexists;
    (split; [reflexivity|]);
    rewrite sentCommands_app, sentCommands_signUpEvents;
    (split; [reflexivity|exact Hu]).
Qed.

Lemma generateEmail_of_stripped_username_witness :
  exists u : jsstring,
    fst (generateUsername sampleEnv initial) = Returned u /\
    startsWith (lit "ci-test-") u = true /\
    lit "ci-test-" ++ replace (lit "ci-test-") [] u = u /\
    indexOf (lit "ci-test-") (replace (lit "ci-test-") [] u) = None /\
    generateEmail (replace (lit "ci-test-") [] u)
      = u ++ lit "@test.example.com" /\
    exists input evs,
      events (snd (createTestUser sampleConfig sampleEnv initial))
        = events initial ++ evs /\
      hd_error (sentCommands evs) = Some (SignUpCommand input) /\
      su_Username input = u ++ lit "@test.example.com".
Proof.
  destruct (generateEmail_of_stripped_username sampleEnv initial)
    as (u & Hu & Hstart & Hstrip & Hidx & Hmail & Hrun).
  exists u. repeat (split; [assumption|]).
  exact (Hrun sampleConfig configured_sample).
Defined.

(* ================================================================= *)
(** ** Every run of [createTestUser] *)

Lemma newEvents_withEvents (st : State) (evs : list Event) :
  newEvents st (withEvents st evs) = evs.
Proof.
  unfold newEvents, withEvents. cbn [events].
  now rewrite skipn_app, skipn_all, Nat.sub_diag.
Qed.

Lemma newEvents_provisioned (st : State) (n : nat) (evs : list Event) :
  newEvents st (provisioned st n evs) = evs.
Proof.
  unfold newEvents, provisioned. cbn [events].
  now rewrite skipn_app, skipn_all, Nat.sub_diag.
Qed.

(** The four ways a run can go. *)
Lemma createTestUser_cases (cfg : Config) (env : Env) (st : State) :
  (~ configured cfg /\
   exists field,
     createTestUser cfg env st =
     (Exited 1%Z,
      withEvents st [ConsoleError [LogString (missingMessage field)]])) \/
  (configured cfg /\
   exists e,
     signUpAnswer cfg env st = Some e /\
     createTestUser cfg env st =
     (Exited 1%Z,
      provisioned st 1 (signUpEvents cfg env st ++ [failureEvent e]))) \/
  (configured cfg /\ signUpAnswer cfg env st = None /\
   exists e,
     confirmAnswer cfg env st = Some e /\
     createTestUser cfg env st =
     (Exited 1%Z,
      provisioned st 2
        (signUpEvents cfg env st ++ confirmEvents cfg env st
           ++ [failureEvent e]))) \/
  (configured cfg /\ signUpAnswer cfg env st = None /\
   confirmAnswer cfg env st = None /\
   createTestUser cfg env st =
   (Returned {| username := generatedEmail env st;
                password := generatedPassword env st |},
    provisioned st 2
      (signUpEvents cfg env st ++ confirmEvents cfg env st
         ++ [ConsoleLog [LogString (checkMark
               ++ lit " AdminConfirmSignUp succeeded")]]))).
Proof.
  destruct (truthy (aws_user_pools_id cfg)) eqn:Hp.
  2:{ left. split; [intros (H & _); congruence|].
      eexists. now apply createTestUser_no_pool. }
  destruct (truthy (aws_user_pools_web_client_id cfg)) eqn:Hc.
  2:{ left. split; [intros (_ & H & _); congruence|].
      eexists. now apply createTestUser_no_client. }
  destruct (truthy (aws_cognito_region cfg)) eqn:Hr.
  2:{ left. split; [intros (_ & _ & H); congruence|].
      eexists. now apply createTestUser_no_region. }
  assert (Hcfg : configured cfg) by (repeat split; assumption).
  right. rewrite (createTestUser_run env st Hcfg).
  unfold signUpAnswer, confirmAnswer.
  destruct (cognitoSend env (sends st) (signUpOf cfg env st)) as [e1|].
  { left. split; [exact Hcfg|]. exists e1. auto. }
  right.
  destruct (cognitoSend env (S (sends st)) (adminConfirmOf cfg env st))
    as [e2|].
  { left. repeat split; try apply Hcfg. exists e2. auto. }
  right. repeat split; apply Hcfg.
Qed.

(** X1: a run of [createTestUser] never ends with a thrown value; when it
    ends the process the status is 1; and it returns credentials exactly
    when the three configuration values pass the checks and the provider
    accepts both commands. *)
Theorem createTestUser_outcome (cfg : Config) (env : Env) (st : State) :
  (forall e, fst (createTestUser cfg env st) <> Threw e) /\
  (forall c, fst (createTestUser cfg env st) = Exited c -> c = 1%Z) /\
  ((exists u, fst (createTestUser cfg env st) = Returned u) <->
   configured cfg /\ signUpAnswer cfg env st = None /\
   confirmAnswer cfg env st = None).
Proof.
  destruct (createTestUser_cases cfg env st)
    as [(Hn & f & ->)|[(Hc & e & Ha & ->)|[(Hc & Ha & e & Hb & ->)
                                          |(Hc & Ha & Hb & ->)]]];
    cbn [fst]; (split; [discriminate|]); (split; [now intros c [= <-]|]).
  - split; [intros (u & [=])|intros (H & _); contradiction].
  - split; [intros (u & [=])|intros (_ & H & _); congruence].
  - split; [intros (u & [=])|intros (_ & _ & H); congruence].
  - split; [auto|intros _; eexists; reflexivity].
Qed.

(** X2: a run of [createTestUser] only appends to the log, and its counter
    of sends grows by the number of commands it logged.  Without a complete
    configuration it sends nothing, reads no clock and draws no byte; with
    one it sends SignUp first, followed by AdminConfirmSignUp exactly when
    SignUp was accepted, and nothing else. *)
Theorem createTestUser_commands (cfg : Config) (env : Env) (st : State) :
  events (snd (createTestUser cfg env st)) =
    events st ++ newEvents st (snd (createTestUser cfg env st)) /\
  sends (snd (createTestUser cfg env st)) =
    sends st + length (issued cfg env st) /\
  (~ configured cfg ->
   issued cfg env st = [] /\
   clockReads (snd (createTestUser cfg env st)) = clockReads st /\
   bytesDrawn (snd (createTestUser cfg env st)) = bytesDrawn st) /\
  (configured cfg ->
   (signUpAnswer cfg env st <> None ->
    issued cfg env st = [signUpOf cfg env st]) /\
   (signUpAnswer cfg env st = None ->
    issued cfg env st = [signUpOf cfg env st; adminConfirmOf cfg env st])).
Proof.
  unfold issued.
  destruct (createTestUser_cases cfg env st)
    as [(Hn & f & ->)|[(Hc & e & Ha & ->)|[(Hc & Ha & e & Hb & ->)
                                          |(Hc & Ha & Hb & ->)]]];
    cbn [snd]; rewrite ?newEvents_withEvents, ?newEvents_provisioned;
    rewrite ?sentCommands_app, ?sentCommands_signUpEvents,
      ?sentCommands_confirmEvents;
    (split; [reflexivity|]); (split; [cbn; lia|]).
  - split; [intros _; repeat split; reflexivity|contradiction].
  - split; [contradiction|]. intros _. split; [reflexivity|congruence].
  - split; [contradiction|]. intros _. split; [congruence|reflexivity].
  - split; [contradiction|]. intros _. split; [congruence|reflexivity].
Qed.

Lemma createTestUser_commands_witness :
  issued sampleConfig sampleEnv initial =
    [signUpOf sampleConfig sampleEnv initial;
     adminConfirmOf sampleConfig sampleEnv initial] /\
  issued noRegionConfig sampleEnv initial = [].
Proof.
  split.
  - apply (createTestUser_commands sampleConfig sampleEnv initial).
    + exact configured_sample.
    + reflexivity.
  - apply (createTestUser_commands noRegionConfig sampleEnv initial).
    intros (_ & _ & H). discriminate H.
Defined.

Lemma issued_configured (cfg : Config) (env : Env) (st : State) :
  configured cfg ->
  hd_error (issued cfg env st) = Some (signUpOf cfg env st).
Proof.
  intros Hcfg. unfold issued.
  rewrite (createTestUser_run env st Hcfg).
  destruct (cognitoSend env (sends st) (signUpOf cfg env st));
    [|destruct (cognitoSend env (S (sends st)) (adminConfirmOf cfg env st))];
    cbn [snd]; rewrite newEvents_provisioned, sentCommands_app,
      sentCommands_signUpEvents; reflexivity.
Qed.

Lemma generatedEmail_inj (env env' : Env) (st st' : State) :
  generatedEmail env st = generatedEmail env' st' ->
  usernameInputs env st = usernameInputs env' st'.
Proof.
  unfold generatedEmail, generatedUsername, usernameInputs. intros H.
  apply app_inv_tail in H. apply usernameOf_inj in H.
  destruct H as (-> & -> & ->). reflexivity.
Qed.

(** X3: two runs of [createTestUser] that pass the configuration checks and
    differ in the clock reading or in one of the two random bytes of the
    username register different Usernames, whatever the configurations and
    the provider's answers are. *)
Theorem createTestUser_registers_distinct
        (cfg cfg' : Config) (env env' : Env) (st st' : State)
        (input input' : SignUpInput) :
  configured cfg -> configured cfg' ->
  usernameInputs env st <> usernameInputs env' st' ->
  hd_error (issued cfg env st) = Some (SignUpCommand input) ->
  hd_error (issued cfg' env' st') = Some (SignUpCommand input') ->
  su_Username input <> su_Username input'.
Proof.
  intros Hcfg Hcfg' Hne.
  rewrite (issued_configured env st Hcfg),
    (issued_configured env' st' Hcfg').
  unfold signUpOf. intros [= <-] [= <-]. cbn [su_Username].
  intros Heq. apply Hne. now apply generatedEmail_inj.
Qed.

Lemma createTestUser_registers_distinct_witness :
  su_Username
    {| ClientId := aws_user_pools_web_client_id sampleConfig;
       su_Username := generatedEmail sampleEnv initial;
       Password := generatedPassword sampleEnv initial;
       UserAttributes := [(lit "email", generatedEmail sampleEnv initial)] |}
  <>
  su_Username
    {| ClientId := aws_user_pools_web_client_id sampleConfig;
       su_Username := generatedEmail shiftedEnv initial;
       Password := generatedPassword shiftedEnv initial;
       UserAttributes := [(lit "email", generatedEmail shiftedEnv initial)] |}.
Proof.
  apply (@createTestUser_registers_distinct
           sampleConfig sampleConfig sampleEnv shiftedEnv initial initial).
  - exact configured_sample.
  - exact configured_sample.
  - vm_compute. discriminate.
  - reflexivity.
  - reflexivity.
Defined.

(* ================================================================= *)
(** ** The credentials a run returns *)

Lemma tokenChar_not_terminator (c : code_unit) :
  tokenChar c = true -> negb (isLineTerminator c) = true.
Proof.
  unfold tokenChar, isHexDigit, isDigit, isHyphen, isLineTerminator.
  rewrite negb_true_iff, !orb_true_iff, !andb_true_iff, !N.leb_le, !N.eqb_eq.
  intros H. rewrite !orb_false_iff, !N.eqb_neq. lia.
Qed.


Lemma generatedEmail_token (env : Env) (st : State) :
  generatedEmail env st =
  generateEmail
    (numberToString (Date_now env (clockReads st)) ++ lit "-"
       ++ hexByte (randomByte env (bytesDrawn st))
       ++ hexByte (randomByte env (S (bytesDrawn st)))).
Proof.
  rewrite <- generateEmail_generated. unfold generatedUsername.
  now rewrite usernameOf_prefix.
Qed.

Lemma generatedPassword_suffix (env : Env) (st : State) :
  exists suffix : jsstring,
    generatedPassword env st = lit "CiTest1!" ++ suffix /\
    length suffix = 8 /\ forallb isAlnum suffix = true.
Proof.
  unfold generatedPassword.
  destruct (passwordOf_suffix
              (map (randomByte env) (seq (bytesDrawn st + 2) 8)))
    as (suffix & Heq & Hlen & Hall).
  rewrite length_map, length_seq in Hlen. eauto.
Qed.

(** X4: the credentials [createTestUser] returns pass the checks of the
    property tests: the username matches
    ^ci-test-(.+)@test\.example\.com$ with a non-empty capture, and the
    password has sixteen code units with an uppercase letter, a lowercase
    letter, a digit and a character that is not alphanumeric. *)
Theorem createTestUser_returns_valid_credentials
        (cfg : Config) (env : Env) (st : State) (user : TestUser) :
  fst (createTestUser cfg env st) = Returned user ->
  (exists token : jsstring,
      Regex.exec Regex.emailPattern (username user) = Some [token] /\
      token <> [] /\
      username user = lit "ci-test-" ++ token ++ lit "@test.example.com") /\
  length (password user) = 16 /\
  test isUpper (password user) = true /\
  test isLower (password user) = true /\
  test isDigit (password user) = true /\
  test (fun c => negb (isAlnum c)) (password user) = true.
Proof.
  destruct (createTestUser_cases cfg env st)
    as [(Hn & f & ->)|[(Hc & e & Ha & ->)|[(Hc & Ha & e & Hb & ->)
                                          |(Hc & Ha & Hb & ->)]]];
    cbn [fst]; try discriminate.
  intros [= <-]. cbn [username password]. split.
  - rewrite generatedEmail_token. eexists. split; [|split; [|reflexivity]].
    + rewrite exec_emailPattern. apply exec_group_complete.
      * destruct (numberToString _); discriminate.
      * unfold noLineTerminator.
        eapply forallb_impl; [|apply token_chars].
        apply tokenChar_not_terminator.
    + destruct (numberToString _); discriminate.
  - destruct (generatedPassword_suffix env st) as (suffix & -> & Hlen & _).
    split; [rewrite length_app, Hlen; reflexivity|].
    repeat split; apply test_prefix; reflexivity.
Qed.

Lemma createTestUser_returns_valid_credentials_witness :
  (exists token : jsstring,
      Regex.exec Regex.emailPattern
        (lit "ci-test-1719432000000-0001@test.example.com") = Some [token] /\
      token <> [] /\
      lit "ci-test-1719432000000-0001@test.example.com"
        = lit "ci-test-" ++ token ++ lit "@test.example.com") /\
  length (lit "CiTest1!CDEFGHIJ") = 16 /\
  test isUpper (lit "CiTest1!CDEFGHIJ") = true /\
  test isLower (lit "CiTest1!CDEFGHIJ") = true /\
  test isDigit (lit "CiTest1!CDEFGHIJ") = true /\
  test (fun c => negb (isAlnum c)) (lit "CiTest1!CDEFGHIJ") = true.
Proof.
  apply (@createTestUser_returns_valid_credentials
           sampleConfig sampleEnv initial
           {| username := lit "ci-test-1719432000000-0001@test.example.com";
              password := lit "CiTest1!CDEFGHIJ" |}).
  reflexivity.
Defined.

(* ================================================================= *)
(** ** What the script writes with [console.log] *)















(* ================================================================= *)
(** ** The pattern of the e-mail test, on any string *)

Lemma exec_chars_prefix (l : jsstring) (p : Regex.pattern) (s : jsstring)
      (caps : list jsstring) :
  Regex.exec (map Regex.Chr l ++ p) s = Some caps ->
  exists s', s = l ++ s' /\ Regex.exec p s' = Some caps.
Proof.
  revert s. induction l as [|c l IH]; intros s; cbn [map app].
  - intros H. exists s. auto.
  - destruct s as [|x s]; cbn [Regex.exec]; [discriminate|].
    destruct (N.eqb_spec x c) as [->|]; [|discriminate].
    intros H. destruct (IH _ H) as (s' & -> & Hs'). exists s'. auto.
Qed.

(** X6: ^ci-test-(.+)@test\.example\.com$ matches a string exactly when
    the string is "ci-test-", a non-empty run without line terminators and
    "@test.example.com"; the group then captures that run.  So a string
    that matches always has a non-empty capture, and the address of the
    empty token does not match. *)
Theorem emailPattern_matches_iff (s : jsstring) (caps : list jsstring) :
  Regex.exec Regex.emailPattern s = Some caps <->
  exists cap : jsstring,
    caps = [cap] /\
    s = lit "ci-test-" ++ cap ++ lit "@test.example.com" /\
    cap <> [] /\ noLineTerminator cap = true.
Proof.
  split.
  - unfold Regex.emailPattern, Regex.chars. intros H.
    apply exec_chars_prefix in H. destruct H as (s' & -> & H).
    apply exec_group_sound in H.
    destruct H as (cap & -> & -> & Hne & Hno). exists cap. auto.
  - intros (cap & -> & -> & Hne & Hno).
    change (lit "ci-test-" ++ cap ++ lit "@test.example.com")
      with (generateEmail cap).
    rewrite exec_emailPattern. now apply exec_group_complete.
Qed.

Lemma emailPattern_matches_iff_witness :
  Regex.exec Regex.emailPattern (generateEmail []) <> Some [[]] /\
  Regex.exec Regex.emailPattern (lit "ci-test-x@test.example.com")
    = Some [lit "x"].
Proof.
  split.
  - intros H.
    apply (proj1 (emailPattern_matches_iff (generateEmail []) [[]])) in H.
    destruct H as (cap & [= <-] & _ & Hne & _). now apply Hne.
  - apply (proj2 (emailPattern_matches_iff
                    (lit "ci-test-x@test.example.com") [lit "x"])).
    exists (lit "x"). repeat split. discriminate.
Defined.

(* ================================================================= *)
(** ** How the password characters are drawn *)

Lemma allBytes_complete (b : byte) : In b allBytes.
Proof.
  assert (H : existsb (Byte.eqb b) allBytes = true)
    by (destruct b; vm_compute; reflexivity).
  apply existsb_exists in H. destruct H as (x & Hin & Heq).
  apply Byte.byte_dec_bl in Heq. now subst x.
Qed.

Lemma allBytes_NoDup : NoDup allBytes.
Proof.
  assert (H : forallb (fun n => Nat.eqb (Byte.to_nat (nth n allBytes x00)) n)
                      (seq 0 256) = true) by (vm_compute; reflexivity).
  apply (NoDup_nth allBytes x00). intros i j Hi Hj Heq.
  assert (Hl : length allBytes = 256) by (vm_compute; reflexivity).
  rewrite Hl in Hi, Hj. rewrite forallb_forall in H.
  pose proof (H i) as Hi'. pose proof (H j) as Hj'.
  rewrite in_seq, Nat.eqb_eq in Hi', Hj'.
  rewrite <- Hi', <- Hj' by lia. now rewrite Heq.
Qed.

(** X7: the suffix of the password is not uniform over the alphabet:
    [b % 62] sends five of the 256 byte values to each of the letters A to H
    and four to each of the other 54 characters; every byte value is sent to
    some character of the alphabet. *)
Theorem passwordChar_distribution :
  NoDup allBytes /\ (forall b, In b allBytes) /\
  (forall b, exists c, passwordChar b = Some [c] /\ In c alphanumeric) /\
  (forall c, In c alphanumeric ->
             byteCount c = if (c <=? 72)%N && (65 <=? c)%N then 5 else 4).
Proof.
  split; [exact allBytes_NoDup|]. split; [exact allBytes_complete|]. split.
  - intros b. destruct b; vm_compute; eexists; (split; [reflexivity|]);
      tauto.
  - intros c Hc. unfold alphanumeric in Hc.
    vm_compute in Hc.
    repeat (destruct Hc as [<-|Hc]; [vm_compute; reflexivity|]).
    contradiction.
Qed.

(* ================================================================= *)
(** ** Repeated usernames *)

(** X8: the usernames of N consecutive calls of [generateUsername] are
    pairwise distinct exactly when the calls do not repeat a combination of
    clock reading and random bytes: two calls in the same millisecond that
    draw the same two bytes return the same username. *)
Theorem generateUsernames_NoDup_iff (env : Env) (st : State) (count : nat) :
  exists us : list jsstring,
    fst (generateUsernames count env st) = Returned us /\
    (NoDup us <-> NoDup (map (nthUsernameInputs env st) (seq 0 count))).
Proof.
  rewrite generateUsernames_run. cbn [fst]. eexists.
  split; [reflexivity|].
  rewrite <- (map_map (nthUsernameInputs env st) formatInputs).
  split.
  - apply NoDup_map_inv.
  - apply NoDup_map_injective. apply formatInputs_inj.
Qed.

Lemma generateUsernames_NoDup_iff_witness :
  exists us : list jsstring,
    fst (generateUsernames 2 shiftedEnv
           {| clockReads := 0; bytesDrawn := 255; sends := 0; events := [] |})
      = Returned us /\
    ~ NoDup us.
Proof.
  destruct (generateUsernames_NoDup_iff
              shiftedEnv
              {| clockReads := 0; bytesDrawn := 255; sends := 0;
                 events := [] |} 2)
    as (us & Hus & Hiff).
  exists us. split; [exact Hus|].
  intros Hnd. apply Hiff in Hnd. vm_compute in Hnd.
  inversion Hnd as [|x l Hnotin _]. apply Hnotin. left. reflexivity.
Defined.

(* ================================================================= *)
(** ** The test run around [createTestUser] *)

Lemma withEvents_app (st : State) (xs ys : list Event) :
  withEvents (withEvents st xs) ys = withEvents st (xs ++ ys).
Proof.
  unfold withEvents. cbn [clockReads bytesDrawn sends events].
  now rewrite app_assoc.
Qed.

Lemma console_log_bind {A} (args : list logarg) (k : M A)
      (env : Env) (st : State) :
  (console_log args ;; k) env st = k env (withEvents st [ConsoleLog args]).
Proof. reflexivity. Qed.

(** After its banner, the first script is [createTestUser] followed by the
    rest of the run. *)
Lemma runAllTests_banner (utils : TestUtils) (cfg : Config)
      (env : Env) (st : State) :
  runAllTests utils cfg env st =
  (testUser <- createTestUser cfg ;;
   runner <- createTestRunner utils ;;
   let '(runTest, printSummary) := runner in
   testFunctions <- createTestFunctions utils testUser ;;
   orchestrator <- createTestOrchestrator utils testFunctions runTest ;;
   let '(runPublicQueryTests, runMutationTests, runStorageTests) :=
     orchestrator in
   runPublicQueryTests ;;
   isAuthenticated <- authenticateUser utils testFunctions ;;
   if negb isAuthenticated
   then console_log [LogString cannotAuthenticate] ;; ret tt
   else
     runMutationTests ;;
     runStorageTests ;;
     signOutUser utils testFunctions ;;
     printSummary) env (withEvents st (banner "Gen1")).
Proof.
  unfold runAllTests. rewrite !console_log_bind, !withEvents_app.
  reflexivity.
Qed.

(** X9: when provisioning does not return credentials, the first script
    ends the process with status 1 right after [createTestUser]: the state
    is the one [createTestUser] left, so nothing of test-utils.ts was
    called. *)
Theorem runAllTests_stops_without_user
        (utils : TestUtils) (cfg : Config) (env : Env) (st : State) :
  (forall user,
      fst (createTestUser cfg env (withEvents st (banner "Gen1")))
        <> Returned user) ->
  runAllTests utils cfg env st =
  (Exited 1%Z, snd (createTestUser cfg env (withEvents st (banner "Gen1")))).
Proof.
  intros Hno. rewrite runAllTests_banner. unfold bind at 1.
  destruct (createTestUser_cases cfg env (withEvents st (banner "Gen1")))
    as [(Hn & f & Hrun)|[(Hc & e & Ha & Hrun)|[(Hc & Ha & e & Hb & Hrun)
                                              |(Hc & Ha & Hb & Hrun)]]];
    rewrite Hrun in *; cbn [fst snd] in *; try reflexivity.
  exfalso. exact (Hno _ eq_refl).
Qed.

Lemma runAllTests_stops_without_user_witness :
  runAllTests (sampleUtils true (ret tt)) noRegionConfig sampleEnv initial =
  (Exited 1%Z,
   snd (createTestUser noRegionConfig sampleEnv
          (withEvents initial (banner "Gen1")))).
Proof.
  apply (runAllTests_stops_without_user
           (sampleUtils true (ret tt)) noRegionConfig sampleEnv initial).
  intros user. vm_compute. discriminate.
Defined.



(** X11: the first script has no cleanup: when the mutation tests do not
    return (they throw or end the process), the run ends the same way in
    the state they left, so the storage tests, the sign-out and the summary
    are not run. *)
Theorem runAllTests_no_cleanup
        (utils : TestUtils) (cfg : Config) (env : Env)
        (st st1 st2 st3 st4 st5 st6 st7 : State) (user : TestUser)
        (runTest : RunTest utils) (printSummary : M unit)
        (testFunctions : TestFunctions utils)
        (runPublicQueryTests runMutationTests runStorageTests : M unit)
        (r : Result unit) :
  createTestUser cfg env (withEvents st (banner "Gen1"))
    = (Returned user, st1) ->
  createTestRunner utils env st1 = (Returned (runTest, printSummary), st2) ->
  createTestFunctions utils user env st2 = (Returned testFunctions, st3) ->
  createTestOrchestrator utils testFunctions runTest env st3
    = (Returned (runPublicQueryTests, runMutationTests, runStorageTests),
       st4) ->
  runPublicQueryTests env st4 = (Returned tt, st5) ->
  authenticateUser utils testFunctions env st5 = (Returned true, st6) ->
  runMutationTests env st6 = (r, st7) ->
  (forall x, r <> Returned x) ->
  runAllTests utils cfg env st = (r, st7).
Proof.
  intros H1 H2 H3 H4 H5 H6 H7 Hr. rewrite runAllTests_banner.
  unfold bind. rewrite H1, H2, H3, H4, H5, H6. cbn [negb]. rewrite H7.
  destruct r as [x|e|c]; [now destruct (Hr x)|reflexivity|reflexivity].
Qed.

Lemma runAllTests_no_cleanup_witness :
  runAllTests (sampleUtils true (throw (ErrorInstance (lit "Unauthorized"))))
              sampleConfig sampleEnv initial =
  (Threw (ErrorInstance (lit "Unauthorized")),
   withEvents
     (withEvents
        (withEvents
           (snd (createTestUser sampleConfig sampleEnv
                   (withEvents initial (banner "Gen1"))))
           [ConsoleLog [LogString (lit "runPublicQueryTests")]])
        [ConsoleLog [LogString (lit "authenticateUser")]])
     [ConsoleLog [LogString (lit "runMutationTests")]]).
Proof.
  pose (st1 := snd (createTestUser sampleConfig sampleEnv
                      (withEvents initial (banner "Gen1")))).
  pose (user := {| username := generatedEmail sampleEnv initial;
                   password := generatedPassword sampleEnv initial |}).
  apply (@runAllTests_no_cleanup
           (sampleUtils true (throw (ErrorInstance (lit "Unauthorized"))))
           sampleConfig sampleEnv
           initial st1 st1 st1 st1
           (withEvents st1 [ConsoleLog [LogString (lit "runPublicQueryTests")]])
           (withEvents
              (withEvents st1
                 [ConsoleLog [LogString (lit "runPublicQueryTests")]])
              [ConsoleLog [LogString (lit "authenticateUser")]])
           (withEvents
              (withEvents
                 (withEvents st1
                    [ConsoleLog [LogString (lit "runPublicQueryTests")]])
                 [ConsoleLog [LogString (lit "authenticateUser")]])
              [ConsoleLog [LogString (lit "runMutationTests")]])
           user tt (say "printSummary") user
           (say "runPublicQueryTests")
           (say "runMutationTests"
              ;; throw (ErrorInstance (lit "Unauthorized")))
           (say "runStorageTests")).
  - vm_compute. reflexivity.
  - reflexivity.
  - reflexivity.
  - reflexivity.
  - reflexivity.
  - reflexivity.
  - reflexivity.
  - intros x. discriminate.
Defined.

(** X12: as committed, the second script runs no test: its constant
    credentials are the placeholder, so for every test-utils.ts and every
    outside it prints its banner and the request to update TEST_USER and
    returns, calling nothing of test-utils.ts. *)
Theorem Gen2_runAllTests_placeholder
        (utils : TestUtils) (env : Env) (st : State) :
  Gen2.runAllTests utils env st =
  (Returned tt,
   withEvents st
     (banner "Gen2"
        ++ [ConsoleLog
              [LogString
                 ([10%N] ++ warningSign
                    ++ lit "  Please update TEST_USER credentials before running!")]])).
Proof.
  unfold Gen2.runAllTests. rewrite !console_log_bind, !withEvents_app.
  change (strictEquals (username Gen2.TEST_USER) (lit "YOUR_USERNAME_HERE"))
    with true.
  cbv iota. rewrite console_log_bind, withEvents_app. reflexivity.
Qed.

(* ================================================================= *)
(** ** What a run of [createTestUser] depends on *)

Lemma generatedUsername_same (env env' : Env) (st : State) :
  Date_now env (clockReads st) = Date_now env' (clockReads st) ->
  (forall i, i < 10 ->
             randomByte env (bytesDrawn st + i)
             = randomByte env' (bytesDrawn st + i)) ->
  generatedUsername env st = generatedUsername env' st.
Proof.
  intros Hc Hb. unfold generatedUsername. rewrite Hc.
  pose proof (Hb 0) as H0. pose proof (Hb 1) as H1.
  rewrite Nat.add_0_r in H0. rewrite Nat.add_1_r in H1.
  rewrite H0, H1 by lia. reflexivity.
Qed.

Lemma generatedPassword_same (env env' : Env) (st : State) :
  (forall i, i < 10 ->
             randomByte env (bytesDrawn st + i)
             = randomByte env' (bytesDrawn st + i)) ->
  generatedPassword env st = generatedPassword env' st.
Proof.
  intros Hb. unfold generatedPassword. f_equal.
  apply map_ext_in. intros n Hn. apply in_seq in Hn.
  replace n with (bytesDrawn st + (n - bytesDrawn st)) by lia.
  apply Hb. lia.
Qed.

(** X13: a run of [createTestUser] observes one clock reading, ten random
    bytes and the provider's answers to its two commands, and nothing else
    of the outside: two outsides that agree on these give the same result
    and the same final state. *)
Theorem createTestUser_depends_only_on
        (cfg : Config) (env env' : Env) (st : State) :
  sameObservations cfg env env' st ->
  createTestUser cfg env st = createTestUser cfg env' st.
Proof.
  intros (Hclock & Hbytes & Hsign & Hconfirm).
  assert (Hu : generatedUsername env st = generatedUsername env' st)
    by now apply generatedUsername_same.
  assert (Hpw : generatedPassword env st = generatedPassword env' st)
    by now apply generatedPassword_same.
  assert (Hmail : generatedEmail env st = generatedEmail env' st)
    by (unfold generatedEmail; now rewrite Hu).
  assert (Hs : signUpOf cfg env st = signUpOf cfg env' st)
    by (unfold signUpOf; now rewrite Hmail, Hpw).
  assert (Ha : adminConfirmOf cfg env st = adminConfirmOf cfg env' st)
    by (unfold adminConfirmOf; now rewrite Hmail).
  destruct (truthy (aws_user_pools_id cfg)) eqn:Hp.
  2:{ now rewrite !createTestUser_no_pool. }
  destruct (truthy (aws_user_pools_web_client_id cfg)) eqn:Hc.
  2:{ now rewrite !createTestUser_no_client. }
  destruct (truthy (aws_cognito_region cfg)) eqn:Hr.
  2:{ now rewrite !createTestUser_no_region. }
  assert (Hcfg : configured cfg) by (repeat split; assumption).
  rewrite !(createTestUser_run _ st Hcfg).
  rewrite <- Hs, <- Ha, <- Hsign, <- Hconfirm.
  unfold signUpEvents, confirmEvents.
  rewrite <- Hs, <- Ha, <- Hmail, <- Hpw. reflexivity.
Qed.

Lemma createTestUser_depends_only_on_witness :
  createTestUser sampleConfig sampleEnv initial
  = createTestUser sampleConfig laterEnv initial.
Proof.
  apply (@createTestUser_depends_only_on
           sampleConfig sampleEnv laterEnv initial).
  split; [reflexivity|]. split; [|split; reflexivity].
  intros i Hi. cbn [bytesDrawn initial Nat.add].
  unfold laterEnv. cbn [randomByte].
  apply Nat.ltb_lt in Hi. now rewrite Hi.
Defined.
